(** * ormic: fields, models and the database handler

    A shallow embedding of [ormic/exceptions.py], [ormic/field.py],
    [ormic/model.py] and [ormic/database.py], followed by the properties
    of the embedded functions.

    Conventions.
    - A Python function that can raise returns a [result]; a method that
      mutates [self] returns the mutated object next to its result, also
      when it raises (the writes made before the [raise] stay).
    - A dict is an association list in insertion order ([Dict]).
    - [Model._fields] is one dict object shared by [Model] and every
      subclass; it is threaded explicitly as the argument [_fields]. *)

From Stdlib Require Import ZArith NArith String Ascii List Bool Lia.
From Stdlib Require DecimalString HexadecimalString.
Import ListNotations.
Open Scope list_scope.
Open Scope string_scope.

Set Implicit Arguments.

(** ** exceptions.py *)

Module exceptions.

(** The exceptions the embedded code can raise.  The first three are
    ormic's own; [Exception_] is the plain [Exception] raised by
    field.py; [KeyError], [TypeError] and [IndexError] are raised by the
    interpreter; [StorageError] stands for whatever the storage client
    raises. *)
Inductive PyExc : Type :=
| BadValue (field_name expected_type : string)
| FieldDoesNotExist (field_name : string)
| NotConnected
| Exception_ (text : string)
| KeyError (key : string)
| TypeError (text : string)
| IndexError
| StorageError (text : string).

(** [OrmicException.__init__]: [super().__init__(text or self.text)]. *)
Definition OrmicException_text (text : option string) (cls_text : string)
  : string :=
  match text with
  | Some (String c s) => String c s
  | _ => cls_text
  end.

Definition NotConnected_text : string :=
  "This database handler isn't connected to a database.".

(** The message an exception carries ([str(e)]) for ormic's exceptions
    and for [Exception]. *)
Definition message (e : PyExc) : string :=
  match e with
  | BadValue field_name expected_type =>
      OrmicException_text
        (Some ("received wrong value type for field " ++ field_name
               ++ ", expected " ++ expected_type)) EmptyString
  | FieldDoesNotExist field_name =>
      OrmicException_text
        (Some (field_name ++ " is not an existent field")) EmptyString
  | NotConnected => OrmicException_text None NotConnected_text
  | Exception_ text => text
  | KeyError key => key
  | TypeError text => text
  | IndexError => "tuple index out of range"
  | StorageError text => text
  end.

End exceptions.
Export exceptions.

(** A returned value or a raised exception. *)
Inductive result (A : Type) : Type :=
| Ok (a : A)
| Raise (e : PyExc).
Arguments Ok {A} a.
Arguments Raise {A} e.

Definition bind {A B : Type} (r : result A) (k : A -> result B) : result B :=
  match r with
  | Ok a => k a
  | Raise e => Raise e
  end.

Notation "x <- r ;; k" := (bind r (fun x => k))
  (at level 61, r at next level, right associativity).

(** ** Dicts in insertion order *)

Section Assoc.
Variables K V : Type.
Variable eqb : K -> K -> bool.

Fixpoint assoc_get (d : list (K * V)) (k : K) : option V :=
  match d with
  | [] => None
  | (k', v) :: d' => if eqb k' k then Some v else assoc_get d' k
  end.

(** [d[k] = v]: an existing key keeps its place, a new one goes last. *)
Fixpoint assoc_set (d : list (K * V)) (k : K) (v : V) : list (K * V) :=
  match d with
  | [] => [(k, v)]
  | (k', v') :: d' =>
      if eqb k' k then (k', v) :: d' else (k', v') :: assoc_set d' k v
  end.
End Assoc.

Module Dict.
Definition t (V : Type) : Type := list (string * V).
Definition get {V} (d : t V) (k : string) : option V :=
  assoc_get String.eqb d k.
Definition set {V} (d : t V) (k : string) (v : V) : t V :=
  assoc_set String.eqb d k v.
Definition keys {V} (d : t V) : list string := map fst d.
Definition values {V} (d : t V) : list V := map snd d.
Definition items {V} (d : t V) : list (string * V) := d.
End Dict.

(** [sep.join(parts)]. *)
Definition join (sep : string) (parts : list string) : string :=
  String.concat sep parts.

(** ** Python types and values *)

Module PyType.
(** The classes the embedded code meets.  [Tclass] is any other class,
    known by its name. *)
Inductive t : Type :=
| Tstr | Tint | Tfloat | Tdatetime | Tbool | TNoneType | TField
| Tclass (name : string).

(** [a == b] on class objects. *)
Definition eqb (a b : t) : bool :=
  match a, b with
  | Tstr, Tstr | Tint, Tint | Tfloat, Tfloat | Tdatetime, Tdatetime
  | Tbool, Tbool | TNoneType, TNoneType | TField, TField => true
  | Tclass n, Tclass m => String.eqb n m
  | _, _ => false
  end.

Definition __name__ (a : t) : string :=
  match a with
  | Tstr => "str" | Tint => "int" | Tfloat => "float"
  | Tdatetime => "datetime" | Tbool => "bool" | TNoneType => "NoneType"
  | TField => "Field" | Tclass n => n
  end.

(** [issubclass(a, b)] between the classes above: [bool] derives from
    [int]; no other pair is related. *)
Definition issubclass (a b : t) : bool :=
  eqb a b || match a, b with Tbool, Tint => true | _, _ => false end.
End PyType.

(** A float: not-a-number, an infinity, or the number
    [mantissa * 2 ^ exponent] with its sign (a zero has mantissa 0 and
    keeps its sign). *)
Inductive PyFloat : Type :=
| FNan
| FInf (negative : bool)
| FFinite (negative : bool) (mantissa : N) (exponent : Z).

Definition signed (negative : bool) (mantissa : N) : Z :=
  if negative then (- Z.of_N mantissa)%Z else Z.of_N mantissa.

(** [x == y] on floats: a NaN equals nothing, itself included; the two
    zeros are equal; numbers compare by their exact values. *)
Definition float_eq (x y : PyFloat) : bool :=
  match x, y with
  | FInf a, FInf b => Bool.eqb a b
  | FFinite s m e, FFinite s' m' e' =>
      let k := Z.min e e' in
      Z.eqb (signed s m * 2 ^ (e - k)) (signed s' m' * 2 ^ (e' - k))
  | _, _ => false
  end.

(** The float with the exact value of an integer: [int == float] compares
    exact values. *)
Definition float_of_Z (z : Z) : PyFloat :=
  FFinite (z <? 0)%Z (Z.abs_N z) 0.

(** Values a field can hold, and [Field] objects: strings, integers,
    booleans, [None], floats and references to [Field] objects.  A float
    object carries its identity [addr] (its [id()]), its value, and the
    text [str()] prints for it when it is a number other than zero; a
    reference to a [Field] object carries the object's identity next to
    its contents.  [datetime] values and objects of other classes are not
    represented. *)
Inductive Value : Type :=
| VStr (s : string)
| VInt (z : Z)
| VBool (b : bool)
| VNone
| VFloat (addr : N) (x : PyFloat) (text : string)
| VField (addr : N) (f : FieldObj)
with FieldObj : Type :=
| mkField (name : string) (type : PyType.t) (sql_type : string)
          (default : Value).

Definition type_of (v : Value) : PyType.t :=
  match v with
  | VStr _ => PyType.Tstr
  | VInt _ => PyType.Tint
  | VBool _ => PyType.Tbool
  | VNone => PyType.TNoneType
  | VFloat _ _ _ => PyType.Tfloat
  | VField _ _ => PyType.TField
  end.

Definition isinstance (v : Value) (ty : PyType.t) : bool :=
  PyType.issubclass (type_of v) ty.

Definition str_of_Z (z : Z) : string :=
  DecimalString.NilZero.string_of_int (Z.to_int z).

Definition hex_of_N (n : N) : string :=
  HexadecimalString.NilZero.string_of_uint (N.to_hex_uint n).

(** [str(x)] for a float. *)
Definition str_of_float (x : PyFloat) (text : string) : string :=
  match x with
  | FNan => "nan"
  | FInf false => "inf"
  | FInf true => "-inf"
  | FFinite false 0%N _ => "0.0"
  | FFinite true 0%N _ => "-0.0"
  | FFinite _ _ _ => text
  end.

(** [str(v)].  [Field] defines no [__repr__], so a Field object prints as
    the default object text with its address. *)
Definition str (v : Value) : string :=
  match v with
  | VStr s => s
  | VInt z => str_of_Z z
  | VBool true => "True"
  | VBool false => "False"
  | VNone => "None"
  | VFloat _ x text => str_of_float x text
  | VField addr _ => "<ormic.field.Field object at 0x" ++ hex_of_N addr ++ ">"
  end.

(** [a == b].  [bool] compares as the integer it is, integers and floats
    by their exact values; [Field] defines no [__eq__], so Field objects
    compare by identity. *)
Definition py_eq (a b : Value) : bool :=
  match a, b with
  | VStr s, VStr s' => String.eqb s s'
  | VInt x, VInt y => Z.eqb x y
  | VInt x, VBool b => Z.eqb x (Z.b2z b)
  | VBool b, VInt y => Z.eqb (Z.b2z b) y
  | VBool b, VBool b' => Bool.eqb b b'
  | VNone, VNone => true
  | VFloat _ x _, VFloat _ y _ => float_eq x y
  | VFloat _ x _, VInt z => float_eq x (float_of_Z z)
  | VInt z, VFloat _ y _ => float_eq (float_of_Z z) y
  | VFloat _ x _, VBool b => float_eq x (float_of_Z (Z.b2z b))
  | VBool b, VFloat _ y _ => float_eq (float_of_Z (Z.b2z b)) y
  | VField p _, VField q _ => N.eqb p q
  | _, _ => false
  end.

(** [a is b], told for the objects whose identity does not already make
    them [==]: two references to one float object. *)
Definition same_object (a b : Value) : bool :=
  match a, b with
  | VFloat p _ _, VFloat q _ _ => N.eqb p q
  | _, _ => false
  end.

(** The comparison of two elements inside a tuple comparison: the same
    object, or [==]. *)
Definition elem_eq (a b : Value) : bool :=
  same_object a b || py_eq a b.

(** [t == u] on tuples: same length and, at every position, the same
    object or [==]. *)
Fixpoint tuple_eq (t u : list Value) : bool :=
  match t, u with
  | [], [] => true
  | x :: t', y :: u' => elem_eq x y && tuple_eq t' u'
  | _, _ => false
  end.

(** ** field.py *)

Record Datatype : Type := { python : PyType.t; sql : list string }.

Definition DATATYPES : list Datatype :=
  [ {| python := PyType.Tstr; sql := ["TEXT"; "CHAR"] |};
    {| python := PyType.Tint; sql := ["INTEGER"; "BIGINT"] |};
    {| python := PyType.Tfloat; sql := ["FLOAT"] |};
    {| python := PyType.Tdatetime; sql := ["DATETIME"] |} ].

(** [x in tuple] for a tuple of strings. *)
Definition str_in (x : string) (l : list string) : bool :=
  existsb (String.eqb x) l.

(** The [for datatype in DATATYPES] loop of [sql_type]. *)
Fixpoint sql_type_from (datatypes : list Datatype) (python_type : PyType.t)
  : result string :=
  match datatypes with
  | [] => Raise (Exception_ ("received invalid type "
                             ++ PyType.__name__ python_type))
  | datatype :: rest =>
      if PyType.eqb (python datatype) python_type
      then match sql datatype with
           | s :: _ => Ok s
           | [] => Raise IndexError
           end
      else sql_type_from rest python_type
  end.

Definition sql_type (python_type : PyType.t) : result string :=
  sql_type_from DATATYPES python_type.

(** The [for datatype in DATATYPES] loop of [python_type]. *)
Fixpoint python_type_from (datatypes : list Datatype) (sql_type : string)
  : result PyType.t :=
  match datatypes with
  | [] => Raise (Exception_ ("received invalid SQL type " ++ sql_type))
  | datatype :: rest =>
      if str_in sql_type (sql datatype)
      then Ok (python datatype)
      else python_type_from rest sql_type
  end.

Definition python_type (sql_type : string) : result PyType.t :=
  python_type_from DATATYPES sql_type.

(** The second argument of [Field.__init__]: [Union[type, str]]. *)
Inductive FieldType : Type :=
| OfType (ty : PyType.t)
| OfStr (sql_name : string).

Module Field.
Definition t : Type := FieldObj.

Definition __init__ (name : string) (field_type : FieldType)
           (default : Value) : result t :=
  match field_type with
  | OfStr s =>
      ty <- python_type s ;;
      Ok (mkField name ty s default)
  | OfType ty =>
      s <- sql_type ty ;;
      Ok (mkField name ty s default)
  end.

Definition name (self : t) : string :=
  match self with mkField n _ _ _ => n end.
Definition type (self : t) : PyType.t :=
  match self with mkField _ ty _ _ => ty end.
Definition sql_type (self : t) : string :=
  match self with mkField _ _ s _ => s end.
Definition default (self : t) : Value :=
  match self with mkField _ _ _ d => d end.

Definition to_sql (self : t) : string :=
  name self ++ " " ++ sql_type self.
End Field.

(** ** model.py *)

(** A class that derives from [Model]: the identity of the class object,
    its name, whether [Model] is among its bases (a class handed to the
    [Database.model] decorator need not have it), its annotations in the
    order they are written and the attributes its body sets.  Names of
    [Model]'s own attributes are not field names here. *)
Module Class.
Record t : Type := {
  id : N;
  __name__ : string;
  derives_Model : bool;
  __annotations__ : list (string * FieldType);
  __dict__ : Dict.t Value }.

(** Class objects compare (and hash) by identity. *)
Definition eqb (a b : t) : bool := N.eqb (id a) (id b).

(** [getattr(cls, name, default)]. *)
Definition getattr (cls : t) (name : string) (default : Value) : Value :=
  match Dict.get (__dict__ cls) name with
  | Some v => v
  | None => default
  end.

(** The attribute [__init_subclass__] sets last:
    [cls.__tablename__ = getattr(cls, "__tablename__", cls.__name__)]. *)
Definition __tablename__ (cls : t) : Value :=
  getattr cls "__tablename__" (VStr (__name__ cls)).
End Class.

Module Model.

(** An instance: its class and its own [__dict__]. *)
Record t : Type := { cls : Class.t; attrs : Dict.t Value }.

(** [cls._fields]: no class gets a dict of its own, the attribute is
    found on [Model] for every subclass. *)
Definition _fields_of (Model_fields : Dict.t Field.t) (cls : Class.t)
  : Dict.t Field.t := Model_fields.

(** The loop of [__init_subclass__] over [cls.__annotations__.items()];
    it writes into the shared dict as it goes. *)
Fixpoint init_fields (cls : Class.t)
         (annotations : list (string * FieldType))
         (_fields : Dict.t Field.t) : result unit * Dict.t Field.t :=
  match annotations with
  | [] => (Ok tt, _fields)
  | (name, type) :: rest =>
      let default := Class.getattr cls name VNone in
      let field :=
        match default with
        | VField _ f => Ok f
        | _ => Field.__init__ name type default
        end in
      match field with
      | Ok field => init_fields cls rest (Dict.set _fields name field)
      | Raise e => (Raise e, _fields)
      end
  end.

Definition __init_subclass__ (cls : Class.t) (_fields : Dict.t Field.t)
  : result unit * Dict.t Field.t :=
  init_fields cls (Class.__annotations__ cls) (_fields_of _fields cls).

Definition to_sql_table (_fields : Dict.t Field.t) (cls : Class.t)
  : string :=
  str (Class.__tablename__ cls) ++ " ("
  ++ join ", " (map Field.to_sql (Dict.values (_fields_of _fields cls)))
  ++ ")".

(** [getattr(self, name, default)]: the instance's own attribute, else
    the class attribute, else the default.  This is Python's lookup for
    the names that neither [Model] nor [object] defines; for the others
    (the properties [fields], [values] and [database], the methods, the
    names with a leading underscore: see [reserved]) Python finds what
    [Model] defines, which is not a [Value]. *)
Definition getattr (self : t) (name : string) (default : Value) : Value :=
  match Dict.get (attrs self) name with
  | Some v => v
  | None => Class.getattr (cls self) name default
  end.

(** [setattr(self, name, value)] for the names [Model] does not define as
    a property: the value goes into the instance's own dict.  (For
    [fields], [values] and [database], properties without a setter,
    Python raises [AttributeError].) *)
Definition setattr (self : t) (name : string) (value : Value) : t :=
  {| cls := cls self; attrs := Dict.set (attrs self) name value |}.

Definition fields (_fields : Dict.t Field.t) (self : t) : list Field.t :=
  Dict.values (_fields_of _fields (cls self)).

Definition _get_value (self : t) (field : Field.t) : Value :=
  getattr self (Field.name field) (Field.default field).

Definition values (_fields : Dict.t Field.t) (self : t) : list Value :=
  map (_get_value self) (fields _fields self).

(** [isinstance(other, type(self)) and self.values == other.values]. *)
Definition __eq__ (_fields : Dict.t Field.t) (self other : t) : bool :=
  Class.eqb (cls other) (cls self)
  && tuple_eq (values _fields self) (values _fields other).

Definition _sql_format (value : Value) : string :=
  if isinstance value PyType.Tstr
  then "'" ++ str value ++ "'"
  else str value.

Definition to_sql (_fields : Dict.t Field.t) (self : t) : string :=
  "(" ++ join ", " (map (fun field => _sql_format (_get_value self field))
                        (fields _fields self)).

Definition to_sql_fields (_fields : Dict.t Field.t) (self : t)
           (joiner : string) : string :=
  join joiner
       (map (fun field =>
               Field.name field ++ " = "
               ++ _sql_format (_get_value self field))
            (fields _fields self)).

(** [set_values]: the keywords are taken in order; the first one that
    is refused raises, the ones before it are already set. *)
Fixpoint set_values (_fields : Dict.t Field.t)
         (new_values : list (string * Value)) (self : t)
  : result unit * t :=
  match new_values with
  | [] => (Ok tt, self)
  | (name, value) :: rest =>
      match Dict.get (_fields_of _fields (cls self)) name with
      | Some field =>
          if isinstance value (Field.type field)
          then set_values _fields rest (setattr self name value)
          else (Raise (BadValue (Field.name field)
                                (PyType.__name__ (Field.type field))),
                self)
      | None => (Raise (FieldDoesNotExist name), self)
      end
  end.

(** Calling the class with keywords: a new instance, then
    [set_values]. *)
Definition __init__ (_fields : Dict.t Field.t) (cls : Class.t)
           (values : list (string * Value)) : result t :=
  match set_values _fields values {| cls := cls; attrs := [] |} with
  | (Ok _, self) => Ok self
  | (Raise e, _) => Raise e
  end.

End Model.

(** ** The storage client

    aiosqlite is outside the repository; database.py uses a connection
    through [execute], [commit] and the cursor's [fetchall] and
    [fetchone].  A connection is modelled by what it was asked
    ([executed], [commits]) and by the replies it will give, in order. *)

Definition Row : Type := list Value.

Inductive Reply : Type :=
| Rows (rows : list Row)
| Fails (text : string).

Module Connection.
Record t : Type := {
  executed : list string;
  commits : nat;
  replies : list Reply }.

(** [await connection.execute(query)]: the cursor's rows, or the
    client's exception. *)
Definition execute (self : t) (query : string) : result (list Row) * t :=
  let self' := {| executed := (executed self ++ [query])%list;
                  commits := commits self;
                  replies := tl (replies self) |} in
  match replies self with
  | Fails text :: _ => (Raise (StorageError text), self')
  | Rows rows :: _ => (Ok rows, self')
  | [] => (Ok [], self')
  end.

Definition commit (self : t) : t :=
  {| executed := executed self;
     commits := S (commits self);
     replies := replies self |}.

Definition fetchall (cursor : list Row) : list Row := cursor.
Definition fetchone (cursor : list Row) : option Row := hd_error cursor.
End Connection.

(** ** database.py *)

(** What [Database.execute] returns: nothing, the row (or [None]) of
    [fetchone], or the rows of [fetchall]. *)
Inductive Fetched : Type :=
| NoFetch
| OneRow (row : option Row)
| AllRows (rows : list Row).

(** [l[:stop]]. *)
Definition slice_to {A} (l : list A) (stop : Z) : list A :=
  if (0 <=? stop)%Z then firstn (Z.to_nat stop) l
  else firstn (length l - Z.to_nat (- stop)) l.

(** [dict(items)]: a later item replaces an earlier one of the same key. *)
Definition dict_of_items {V} (items : list (string * V)) : Dict.t V :=
  fold_left (fun d kv => Dict.set d (fst kv) (snd kv)) items [].

Module Database.

Record cache_config_t : Type := { on : bool; limit : option Z }.

Record t : Type := {
  models : list Class.t;
  connection : option Connection.t;
  cache : list (Class.t * list Model.t);
  cache_config : cache_config_t }.

Definition set_connection (self : t) (c : option Connection.t) : t :=
  {| models := models self; connection := c;
     cache := cache self; cache_config := cache_config self |}.

Definition set_bucket (self : t) (model : Class.t) (bucket : list Model.t)
  : t :=
  {| models := models self; connection := connection self;
     cache := assoc_set Class.eqb (cache self) model bucket;
     cache_config := cache_config self |}.

Definition add_model (self : t) (model : Class.t) : t :=
  {| models := (models self ++ [model])%list;
     connection := connection self;
     cache := cache self; cache_config := cache_config self |}.

Definition __init__ (models : list Class.t)
           (connection : option Connection.t) : t :=
  fold_left add_model models
    {| models := []; connection := connection; cache := [];
       cache_config := {| on := false; limit := None |} |}.

Definition set_caching (self : t) (on : bool) (limit : Z) : t :=
  {| models := models self; connection := connection self;
     cache := cache self;
     cache_config := {| on := on; limit := Some limit |} |}.

(** [model in self.cache]. *)
Definition in_cache (self : t) (model : Class.t) : bool :=
  match assoc_get Class.eqb (cache self) model with
  | Some _ => true
  | None => false
  end.

Definition caching_on (self : t) (model : Class.t) : bool :=
  on (cache_config self) && in_cache self model.

(** [object in bucket]: some item of the list with [item == object]. *)
Definition contains (_fields : Dict.t Field.t) (bucket : list Model.t)
           (object : Model.t) : bool :=
  existsb (fun item => Model.__eq__ _fields item object) bucket.

(** The [for object in objects[:count]] loop of [add_to_cache]. *)
Fixpoint append_new (_fields : Dict.t Field.t) (objects bucket : list Model.t)
  : list Model.t :=
  match objects with
  | [] => bucket
  | object :: rest =>
      if contains _fields bucket object
      then append_new _fields rest bucket
      else append_new _fields rest (bucket ++ [object])%list
  end.

(** [if count := (limit - len(bucket)) > 0:] binds [count] to the
    comparison's bool, and [objects[:count]] slices with it. *)
Definition add_to_cache (_fields : Dict.t Field.t) (self : t)
           (model : Class.t) (objects : list Model.t) : result unit * t :=
  match assoc_get Class.eqb (cache self) model with
  | None => (Raise (KeyError (Class.__name__ model)), self)
  | Some bucket =>
      match limit (cache_config self) with
      | None =>
          (Raise (TypeError
                    "unsupported operand type(s) for -: 'NoneType' and 'int'"),
           self)
      | Some limit =>
          let count : bool :=
            (limit - Z.of_nat (length bucket) >? 0)%Z in
          if count
          then (Ok tt,
                set_bucket self model
                  (append_new _fields (slice_to objects (Z.b2z count)) bucket))
          else (Ok tt, self)
      end
  end.

(** The [model] decorator.  A class that lacks [Model] among its bases
    is replaced by a new class object (identity [new_id]) deriving from
    it and from [Model], whose creation runs [__init_subclass__].  The
    back-reference [cls._database = self] is not part of this state. *)
Definition model (_fields : Dict.t Field.t) (self : t) (new_id : N)
           (cls : Class.t) : result Class.t * (Dict.t Field.t * t) :=
  if Class.derives_Model cls
  then (Ok cls, (_fields, add_model self cls))
  else
    let cls' := {| Class.id := new_id;
                   Class.__name__ := Class.__name__ cls;
                   Class.derives_Model := true;
                   Class.__annotations__ := Class.__annotations__ cls;
                   Class.__dict__ := Class.__dict__ cls |} in
    match Model.__init_subclass__ cls' _fields with
    | (Ok _, _fields') => (Ok cls', (_fields', add_model self cls'))
    | (Raise e, _fields') => (Raise e, (_fields', self))
    end.

Definition execute (self : t) (query : string)
           (commit fetch fetch_one : bool) : result Fetched * t :=
  match connection self with
  | None => (Raise NotConnected, self)
  | Some conn =>
      match Connection.execute conn query with
      | (Raise e, conn') => (Raise e, set_connection self (Some conn'))
      | (Ok cursor, conn') =>
          let conn'' := if commit then Connection.commit conn' else conn' in
          let self' := set_connection self (Some conn'') in
          if fetch || fetch_one
          then (Ok (if fetch
                    then AllRows (Connection.fetchall cursor)
                    else OneRow (Connection.fetchone cursor)),
                self')
          else (Ok NoFetch, self')
      end
  end.

(** The loop of [create_tables] over [self.models]. *)
Fixpoint create_tables_from (_fields : Dict.t Field.t)
         (models : list Class.t) (self : t) : result unit * t :=
  match models with
  | [] => (Ok tt, self)
  | model :: rest =>
      match execute self ("CREATE TABLE IF NOT EXISTS "
                          ++ Model.to_sql_table _fields model)
                    true false false with
      | (Ok _, self') => create_tables_from _fields rest self'
      | (Raise e, self') => (Raise e, self')
      end
  end.

Definition create_tables (_fields : Dict.t Field.t) (self : t)
  : result unit * t :=
  create_tables_from _fields (models self) self.

(** [connect]; [aiosqlite_connect] is the client's [connect]. *)
Definition connect (aiosqlite_connect : string -> result Connection.t)
           (_fields : Dict.t Field.t) (self : t) (url : string)
           (create_tables_ : bool) : result Connection.t * t :=
  match aiosqlite_connect url with
  | Raise e => (Raise e, self)
  | Ok conn =>
      let self' := set_connection self (Some conn) in
      if create_tables_
      then match create_tables _fields self' with
           | (Ok _, self'') => (Ok conn, self'')
           | (Raise e, self'') => (Raise e, self'')
           end
      else (Ok conn, self')
  end.

Definition unit_of (r : result Fetched * t) : result unit * t :=
  match r with
  | (Ok _, self) => (Ok tt, self)
  | (Raise e, self) => (Raise e, self)
  end.

Definition save (_fields : Dict.t Field.t) (self : t) (object : Model.t)
  : result unit * t :=
  unit_of
    (execute self
       ("INSERT INTO " ++ str (Class.__tablename__ (Model.cls object))
        ++ " ("
        ++ join ", "
             (Dict.keys (Model._fields_of _fields (Model.cls object)))
        ++ ") VALUES " ++ Model.to_sql _fields object ++ ")")
       true false false).

Definition delete (_fields : Dict.t Field.t) (self : t) (object : Model.t)
           (limit : option Z) : result unit * t :=
  let _limit := match limit with
                | Some n => " LIMIT " ++ str_of_Z n
                | None => EmptyString
                end in
  unit_of
    (execute self
       ("DELETE FROM " ++ str (Class.__tablename__ (Model.cls object))
        ++ " WHERE (" ++ Model.to_sql_fields _fields object " AND "
        ++ ")" ++ _limit)
       true false false).

Definition update (_fields : Dict.t Field.t) (self : t) (object : Model.t)
  : result unit * t :=
  unit_of
    (execute self
       ("UPDATE " ++ str (Class.__tablename__ (Model.cls object))
        ++ " SET " ++ Model.to_sql_fields _fields object ", ")
       true false false).

(** The statement both [fetch] and [fetch_all] send. *)
Definition select_query (model : Class.t) (values : list (string * Value))
  : string :=
  "SELECT * FROM " ++ str (Class.__tablename__ model) ++ " WHERE "
  ++ join " AND "
       (map (fun kv => fst kv ++ " = " ++ Model._sql_format (snd kv))
            values).

(** The keywords built from one row: the field names zipped with the
    row's columns. *)
Definition row_kwargs (_fields : Dict.t Field.t) (model : Class.t)
           (data : Row) : list (string * Value) :=
  Dict.items
    (dict_of_items
       (combine (map fst (Dict.items (Model._fields_of _fields model)))
                data)).

(** The list comprehension of [fetch_all]. *)
Fixpoint build_objects (_fields : Dict.t Field.t) (model : Class.t)
         (rows : list Row) : result (list Model.t) :=
  match rows with
  | [] => Ok []
  | data :: rest =>
      object <- Model.__init__ _fields model
                  (row_kwargs _fields model data) ;;
      objects <- build_objects _fields model rest ;;
      Ok (object :: objects)
  end.

Definition not_iterable : PyExc :=
  TypeError "'NoneType' object is not iterable".

Definition fetch_all (_fields : Dict.t Field.t) (self : t)
           (model : Class.t) (values : list (string * Value))
  : result (list Model.t) * t :=
  match execute self (select_query model values) false true false with
  | (Raise e, self') => (Raise e, self')
  | (Ok fetched, self') =>
      let rows := match fetched with
                  | AllRows rows => Ok rows
                  | _ => Raise not_iterable
                  end in
      match (rows <- rows ;; build_objects _fields model rows) with
      | Raise e => (Raise e, self')
      | Ok objects =>
          if caching_on self' model
          then match add_to_cache _fields self' model objects with
               | (Ok _, self'') => (Ok objects, self'')
               | (Raise e, self'') => (Raise e, self'')
               end
          else (Ok objects, self')
      end
  end.

Definition fetch (_fields : Dict.t Field.t) (self : t) (model : Class.t)
           (values : list (string * Value)) : result Model.t * t :=
  match execute self (select_query model values) false false true with
  | (Raise e, self') => (Raise e, self')
  | (Ok fetched, self') =>
      let row := match fetched with
                 | OneRow (Some row) => Ok row
                 | _ => Raise not_iterable
                 end in
      match (row <- row ;;
             Model.__init__ _fields model (row_kwargs _fields model row))
      with
      | Raise e => (Raise e, self')
      | Ok object =>
          if caching_on self' model
          then match add_to_cache _fields self' model [object] with
               | (Ok _, self'') => (Ok object, self'')
               | (Raise e, self'') => (Raise e, self'')
               end
          else (Ok object, self')
      end
  end.

(** [all(getattr(object, key, value) == value for key, value in
    values.items())]. *)
Definition matches (object : Model.t) (values : list (string * Value))
  : bool :=
  forallb (fun kv => py_eq (Model.getattr object (fst kv) (snd kv))
                           (snd kv))
          values.

(** The [for object in self.cache[model]] loop of [get]. *)
Fixpoint scan (bucket : list Model.t) (values : list (string * Value))
  : option Model.t :=
  match bucket with
  | [] => None
  | object :: rest =>
      if matches object values then Some object else scan rest values
  end.

Definition get (self : t) (model : Class.t)
           (values : list (string * Value)) : option Model.t :=
  if caching_on self model
  then match assoc_get Class.eqb (cache self) model with
       | Some bucket => scan bucket values
       | None => None
       end
  else None.

Definition get_or_fetch (_fields : Dict.t Field.t) (self : t)
           (model : Class.t) (values : list (string * Value))
  : result Model.t * t :=
  match get self model values with
  | Some object => (Ok object, self)
  | None => fetch _fields self model values
  end.

End Database.

(** ** Sessions

    The calls a program can make on one [Database] object and on the
    model layer it shares [Model._fields] with.  A call that raises
    leaves the state it reached. *)

Record World : Type := {
  Model_fields : Dict.t Field.t;
  db : Database.t }.

Inductive Call : Type :=
| Class_statement (cls : Class.t)
| Set_caching (on : bool) (limit : Z)
| Caching_on (model : Class.t)
| Add_to_cache (model : Class.t) (objects : list Model.t)
| Add_model (model : Class.t)
| Decorate (new_id : N) (cls : Class.t)
| Connect (url : string) (create_tables : bool)
| Create_tables
| Execute (query : string) (commit fetch fetch_one : bool)
| Save (object : Model.t)
| Delete (object : Model.t) (limit : option Z)
| Update (object : Model.t)
| Fetch_all (model : Class.t) (values : list (string * Value))
| Fetch (model : Class.t) (values : list (string * Value))
| Get (model : Class.t) (values : list (string * Value))
| Get_or_fetch (model : Class.t) (values : list (string * Value)).

Section Session.
Variable aiosqlite_connect : string -> result Connection.t.

Definition step (w : World) (c : Call) : World :=
  let f := Model_fields w in
  let with_db (d : Database.t) := {| Model_fields := f; db := d |} in
  match c with
  | Class_statement cls =>
      {| Model_fields := snd (Model.__init_subclass__ cls f); db := db w |}
  | Set_caching on limit => with_db (Database.set_caching (db w) on limit)
  | Caching_on _ => w
  | Add_to_cache model objects =>
      with_db (snd (Database.add_to_cache f (db w) model objects))
  | Add_model model => with_db (Database.add_model (db w) model)
  | Decorate new_id cls =>
      let r := snd (Database.model f (db w) new_id cls) in
      {| Model_fields := fst r; db := snd r |}
  | Connect url create_tables =>
      with_db (snd (Database.connect aiosqlite_connect f (db w) url
                                     create_tables))
  | Create_tables => with_db (snd (Database.create_tables f (db w)))
  | Execute query commit fetch fetch_one =>
      with_db (snd (Database.execute (db w) query commit fetch fetch_one))
  | Save object => with_db (snd (Database.save f (db w) object))
  | Delete object limit =>
      with_db (snd (Database.delete f (db w) object limit))
  | Update object => with_db (snd (Database.update f (db w) object))
  | Fetch_all model values =>
      with_db (snd (Database.fetch_all f (db w) model values))
  | Fetch model values =>
      with_db (snd (Database.fetch f (db w) model values))
  | Get _ _ => w
  | Get_or_fetch model values =>
      with_db (snd (Database.get_or_fetch f (db w) model values))
  end.

Definition run (w : World) (calls : list Call) : World :=
  fold_left step calls w.
End Session.

(** ** Examples used below *)

(** [class User(Model): id: int; name: str]. *)
Definition User : Class.t :=
  {| Class.id := 1; Class.__name__ := "User"; Class.derives_Model := true;
     Class.__annotations__ :=
       [("id", OfType PyType.Tint); ("name", OfType PyType.Tstr)];
     Class.__dict__ := [] |}.

(** [Model._fields] once [User] alone is declared. *)
Definition User_fields : Dict.t Field.t :=
  snd (Model.__init_subclass__ User []).

Definition user (id : Z) (name : string) : Model.t :=
  {| Model.cls := User;
     Model.attrs := [("id", VInt id); ("name", VStr name)] |}.

(** A handler whose cache holds an empty bucket for [User], with caching
    switched on by [set_caching]. *)
Definition db_with_bucket (limit : Z) : Database.t :=
  Database.set_caching
    {| Database.models := [User]; Database.connection := None;
       Database.cache := [(User, [])];
       Database.cache_config :=
         {| Database.on := false; Database.limit := None |} |}
    true limit.

(** [class Post(Model): title: str], declared after [User]. *)
Definition Post : Class.t :=
  {| Class.id := 2; Class.__name__ := "Post"; Class.derives_Model := true;
     Class.__annotations__ := [("title", OfType PyType.Tstr)];
     Class.__dict__ := [] |}.

(** [class Renamed(Model): id: int = Field('ident', int, 0)]: the Field
    object's own name is not the attribute's. *)
Definition ident_field : Field.t :=
  mkField "ident" PyType.Tint "INTEGER" (VInt 0).

Definition Renamed : Class.t :=
  {| Class.id := 3; Class.__name__ := "Renamed";
     Class.derives_Model := true;
     Class.__annotations__ := [("id", OfType PyType.Tint)];
     Class.__dict__ := [("id", VField 4096 ident_field)] |}.

(** [class Account(Model): id: int = Field('id', int, 0)]. *)
Definition id_field : Field.t :=
  mkField "id" PyType.Tint "INTEGER" (VInt 0).

Definition Account : Class.t :=
  {| Class.id := 5; Class.__name__ := "Account";
     Class.derives_Model := true;
     Class.__annotations__ := [("id", OfType PyType.Tint)];
     Class.__dict__ := [("id", VField 4096 id_field)] |}.

(** ** Definitions used in the statements *)

(** A keyword that [set_values] accepts: it names a field of the mapping
    and its value is an instance of the field's type. *)
Definition accepted (_fields : Dict.t Field.t) (kv : string * Value) : Prop :=
  exists field,
    Dict.get _fields (fst kv) = Some field
    /\ isinstance (snd kv) (Field.type field) = true.

(** [setattr] for each keyword in turn. *)
Definition store_all (new_values : list (string * Value)) (self : Model.t)
  : Model.t :=
  fold_left (fun s kv => Model.setattr s (fst kv) (snd kv)) new_values self.

(** Nesting depth of Field objects inside a value. *)
Fixpoint depth (v : Value) : nat :=
  match v with
  | VField _ f => S (depth_field f)
  | _ => 0
  end
with depth_field (f : FieldObj) : nat :=
  match f with
  | mkField _ _ _ d => S (depth d)
  end.

(** ** model.py: the methods that go through the owning handler

    [Model.save], [update], [delete], [fetch], [fetch_all], [get] and
    [get_or_fetch] reach a handler through the class attribute
    [_database], which only the [Database.model] decorator sets.  The
    state is the shared mapping, the Database objects by identity, and for
    each class the identity of the handler its [_database] refers to. *)
Module Bound.
(** [_database] holds, per class id, the handler a decorator assigned
    to the class attribute [_database]; [mro c] lists the classes the
    class [c] derives from, nearest first, where an attribute the class
    does not hold itself is looked up.  [Model._database] is [None]. *)
Record t : Type := {
  _fields : Dict.t Field.t;
  handlers : N -> Database.t;
  _database : list (N * N);
  mro : N -> list N }.

Definition not_added : PyExc :=
  Exception_ "this model has not been added to any databases".

Definition set_handler (rt : t) (h : N) (d : Database.t) : t :=
  {| _fields := _fields rt;
     handlers := fun h' => if N.eqb h' h then d else handlers rt h';
     _database := _database rt;
     mro := mro rt |}.

(** The first of [classes] that holds a handler in [_database]. *)
Fixpoint first_bound (_database : list (N * N)) (classes : list N)
  : option N :=
  match classes with
  | [] => None
  | c :: rest =>
      match assoc_get N.eqb _database c with
      | Some h => Some h
      | None => first_bound _database rest
      end
  end.

(** [cls._database]: the class itself, then the classes it derives
    from. *)
Definition class_database (rt : t) (c : N) : option N :=
  first_bound (_database rt) (c :: mro rt c).

(** [cls._get_database()]. *)
Definition _get_database (rt : t) (cls : Class.t) : result N :=
  match class_database rt (Class.id cls) with
  | Some h => Ok h
  | None => Raise not_added
  end.

(** [self.database]: the attribute is found on the instance's class. *)
Definition database (rt : t) (self : Model.t) : result N :=
  _get_database rt (Model.cls self).

(** A method of the handler [h], run on the state of that object. *)
Definition on_handler {A} (rt : t) (h : N)
           (method : Database.t -> result A * Database.t) : result A * t :=
  match method (handlers rt h) with
  | (r, d) => (r, set_handler rt h d)
  end.

(** The decorator [Database.model] of the handler [h], with its
    assignment [cls._database = self].  The class it creates for one
    that lacks [Model] among its bases derives from that one. *)
Definition model (rt : t) (h : N) (new_id : N) (cls : Class.t)
  : result Class.t * t :=
  match Database.model (_fields rt) (handlers rt h) new_id cls with
  | (Ok cls', (f, d)) =>
      (Ok cls',
       {| _fields := f;
          handlers := handlers (set_handler rt h d);
          _database := assoc_set N.eqb (_database rt) (Class.id cls') h;
          mro := if Class.derives_Model cls
                 then mro rt
                 else fun c => if N.eqb c new_id
                               then Class.id cls :: mro rt (Class.id cls)
                               else mro rt c |})
  | (Raise e, (f, d)) =>
      (Raise e,
       {| _fields := f;
          handlers := handlers (set_handler rt h d);
          _database := _database rt;
          mro := mro rt |})
  end.

Definition save (rt : t) (self : Model.t) : result unit * t :=
  match database rt self with
  | Raise e => (Raise e, rt)
  | Ok h => on_handler rt h (fun d => Database.save (_fields rt) d self)
  end.

(** [update(save=..., new_values...)]: [set_values] first, then the
    handler's [update] when [save] is set.  The instance is returned as
    the call left it. *)
Definition update (rt : t) (self : Model.t) (save : bool)
           (new_values : list (string * Value))
  : result unit * (t * Model.t) :=
  match Model.set_values (_fields rt) new_values self with
  | (Raise e, self') => (Raise e, (rt, self'))
  | (Ok _, self') =>
      if save
      then match database rt self' with
           | Raise e => (Raise e, (rt, self'))
           | Ok h =>
               match on_handler rt h
                       (fun d => Database.update (_fields rt) d self') with
               | (r, rt') => (r, (rt', self'))
               end
           end
      else (Ok tt, (rt, self'))
  end.

Definition delete (rt : t) (self : Model.t) (limit : option Z)
  : result unit * t :=
  match database rt self with
  | Raise e => (Raise e, rt)
  | Ok h =>
      on_handler rt h (fun d => Database.delete (_fields rt) d self limit)
  end.

Definition fetch (rt : t) (cls : Class.t) (values : list (string * Value))
  : result Model.t * t :=
  match _get_database rt cls with
  | Raise e => (Raise e, rt)
  | Ok h =>
      on_handler rt h (fun d => Database.fetch (_fields rt) d cls values)
  end.

Definition fetch_all (rt : t) (cls : Class.t)
           (values : list (string * Value)) : result (list Model.t) * t :=
  match _get_database rt cls with
  | Raise e => (Raise e, rt)
  | Ok h =>
      on_handler rt h (fun d => Database.fetch_all (_fields rt) d cls values)
  end.

Definition get (rt : t) (cls : Class.t) (values : list (string * Value))
  : result (option Model.t) :=
  h <- _get_database rt cls ;;
  Ok (Database.get (handlers rt h) cls values).

Definition get_or_fetch (rt : t) (cls : Class.t)
           (values : list (string * Value)) : result Model.t * t :=
  match _get_database rt cls with
  | Raise e => (Raise e, rt)
  | Ok h =>
      on_handler rt h
        (fun d => Database.get_or_fetch (_fields rt) d cls values)
  end.
End Bound.

(** ** Further definitions used in the statements *)

(** [class Note(Model): id: str], declared after [User]: it annotates
    [id] again, with another type. *)
Definition Note : Class.t :=
  {| Class.id := 6; Class.__name__ := "Note"; Class.derives_Model := true;
     Class.__annotations__ := [("id", OfType PyType.Tstr)];
     Class.__dict__ := [] |}.

(** A connection that was sent nothing yet and will answer with
    [replies]. *)
Definition new_connection (replies : list Reply) : Connection.t :=
  {| Connection.executed := []; Connection.commits := 0;
     Connection.replies := replies |}.

(** A handler for [User] on such a connection. *)
Definition connected (replies : list Reply) : Database.t :=
  Database.__init__ [User] (Some (new_connection replies)).


(** The connection after it was sent [query]. *)
Definition sent (conn : Connection.t) (query : string) : Connection.t :=
  {| Connection.executed := (Connection.executed conn ++ [query])%list;
     Connection.commits := Connection.commits conn;
     Connection.replies := tl (Connection.replies conn) |}.

(** What the connection answers to the next statement. *)
Definition next_rows (conn : Connection.t) : result (list Row) :=
  match Connection.replies conn with
  | Fails text :: _ => Raise (StorageError text)
  | Rows rows :: _ => Ok rows
  | [] => Ok []
  end.

(** The statement [create_tables] sends for one model. *)
Definition create_statement (_fields : Dict.t Field.t) (model : Class.t)
  : string :=
  "CREATE TABLE IF NOT EXISTS " ++ Model.to_sql_table _fields model.

(** The connection after [create_tables] sent every statement. *)
Definition tables_created (_fields : Dict.t Field.t)
           (models : list Class.t) (conn : Connection.t) : Connection.t :=
  {| Connection.executed :=
       (Connection.executed conn
        ++ map (create_statement _fields) models)%list;
     Connection.commits := Connection.commits conn + length models;
     Connection.replies := skipn (length models) (Connection.replies conn) |}.

Definition is_rows (r : Reply) : Prop :=
  match r with Rows _ => True | Fails _ => False end.

(** [x in l] for strings, as a bool. *)
Definition mem (x : string) (l : list string) : bool :=
  existsb (String.eqb x) l.

(** The names [Model] defines without a leading underscore. *)
Definition Model_public_names : list string :=
  ["to_dict"; "to_sql_table"; "fields"; "values"; "database"; "to_sql";
   "to_sql_fields"; "save"; "set_values"; "update"; "delete"; "fetch";
   "fetch_all"; "get"; "get_or_fetch"].

(** The attribute names [Model] or [object] may define themselves: the
    names above and every name that starts with an underscore.  The
    lookups [Model.getattr] and [Model.setattr] are those of Python for
    every other name. *)
Definition reserved (name : string) : bool :=
  match name with
  | String "_" _ => true
  | _ => mem name Model_public_names
  end.

(** A float object that is not a number. *)
Definition nan (addr : N) : Value := VFloat addr FNan "nan".

Definition is_nan (v : Value) : bool :=
  match v with
  | VFloat _ FNan _ => true
  | _ => false
  end.

(** The field [__init_subclass__] stores for one annotation. *)
Definition field_of (cls : Class.t) (name : string) (type : FieldType)
  : result Field.t :=
  match Class.getattr cls name VNone with
  | VField _ f => Ok f
  | default => Field.__init__ name type default
  end.

(** A program state with the one handler [d] (whatever identity is
    asked for), [User] alone declared, and the given [_database]
    references. *)
Definition runtime (d : Database.t) (bound : list (N * N)) : Bound.t :=
  {| Bound._fields := User_fields;
     Bound.handlers := fun _ => d;
     Bound._database := bound;
     Bound.mro := fun _ => [] |}.

(** [rt] once the class [sub] was declared as deriving from the class
    [base]. *)
Definition with_subclass (rt : Bound.t) (sub base : N) : Bound.t :=
  {| Bound._fields := Bound._fields rt;
     Bound.handlers := Bound.handlers rt;
     Bound._database := Bound._database rt;
     Bound.mro := fun c => if N.eqb c sub
                           then base :: Bound.mro rt base
                           else Bound.mro rt c |}.

(** [class Admin(User): pass]. *)
Definition Admin : Class.t :=
  {| Class.id := 7; Class.__name__ := "Admin"; Class.derives_Model := false;
     Class.__annotations__ := []; Class.__dict__ := [] |}.

(** [b] lists the models of [a] and has its cache configuration, and
    has no connection when [a] has none. *)
Definition keeps (a b : Database.t) : Prop :=
  Database.models b = Database.models a
  /\ Database.cache_config b = Database.cache_config a
  /\ (Database.connection a = None -> Database.connection b = None).

Definition is_connect (c : Call) : bool :=
  match c with
  | Connect _ _ => true
  | _ => false
  end.

(** The instance a class call starts from: no attribute of its own. *)
Definition blank (cls : Class.t) : Model.t :=
  {| Model.cls := cls; Model.attrs := [] |}.

(** Every Field of the mapping carries the name of its key. *)
Definition well_named (_fields : Dict.t Field.t) : Prop :=
  forall entry, In entry _fields -> Field.name (snd entry) = fst entry.

(** The columns of [data] are instances of the types of the fields they
    are zipped with. *)
Definition well_typed (_fields : Dict.t Field.t) (data : Row) : Prop :=
  Forall (fun ev => isinstance (snd ev) (Field.type (snd (fst ev))) = true)
         (combine _fields data).

(** * Properties *)

(** ** Values *)

Lemma PyType_eqb_refl (a : PyType.t) : PyType.eqb a a = true.
Proof. destruct a; simpl; auto using String.eqb_refl. Qed.

Lemma PyType_eqb_eq (a b : PyType.t) : PyType.eqb a b = true <-> a = b.
Proof.
  split.
  - destruct a, b; simpl; try congruence.
    intros H. apply String.eqb_eq in H. congruence.
  - intros ->. apply PyType_eqb_refl.
Qed.

Lemma float_eq_finite_refl (s : bool) (m : N) (e : Z) :
  float_eq (FFinite s m e) (FFinite s m e) = true.
Proof. simpl. apply Z.eqb_refl. Qed.

(** Inside a tuple comparison every element equals itself: a float by
    identity, the other values by [==]. *)
Lemma elem_eq_refl (v : Value) : elem_eq v v = true.
Proof.
  unfold elem_eq.
  destruct v; simpl;
    auto using String.eqb_refl, Z.eqb_refl, Bool.eqb_reflx, N.eqb_refl.
  now rewrite N.eqb_refl.
Qed.

Lemma tuple_eq_refl (t : list Value) : tuple_eq t t = true.
Proof. induction t; simpl; [easy | now rewrite elem_eq_refl]. Qed.

Lemma tuple_eq_map {A} (f g : A -> Value) (l : list A) :
  tuple_eq (map f l) (map g l) = forallb (fun x => elem_eq (f x) (g x)) l.
Proof. induction l; simpl; [easy | now rewrite IHl]. Qed.

(** ** field.py *)

Lemma sql_type_from_unmapped (datatypes : list Datatype) (ty : PyType.t) :
  (forall d, In d datatypes -> python d <> ty) ->
  sql_type_from datatypes ty
  = Raise (Exception_ ("received invalid type " ++ PyType.__name__ ty)).
Proof.
  induction datatypes as [| d rest IH]; intros H; simpl; [reflexivity |].
  destruct (PyType.eqb (python d) ty) eqn:E.
  - apply PyType_eqb_eq in E. exfalso. apply (H d); simpl; auto.
  - apply IH. intros d' Hd'. apply H. simpl; auto.
Qed.

Lemma python_type_from_unmapped (datatypes : list Datatype) (s : string) :
  (forall d, In d datatypes -> ~ In s (sql d)) ->
  python_type_from datatypes s
  = Raise (Exception_ ("received invalid SQL type " ++ s)).
Proof.
  induction datatypes as [| d rest IH]; intros H; simpl; [reflexivity |].
  destruct (str_in s (sql d)) eqn:E.
  - unfold str_in in E. apply existsb_exists in E.
    destruct E as (x & Hx & E). apply String.eqb_eq in E. subst x.
    exfalso. apply (H d); simpl; auto.
  - apply IH. intros d' Hd'. apply H. simpl; auto.
Qed.

(** C5. A registered value type maps to its canonical storage name and
    that name maps back to the type; a canonical name maps to its type and
    back to itself; an alias resolves to the one type of its entry; a type
    or a name outside the table raises an exception that names it. *)
Theorem C5_type_map_round_trip :
  (forall d canonical,
      In d DATATYPES -> hd_error (sql d) = Some canonical ->
      sql_type (python d) = Ok canonical
      /\ python_type canonical = Ok (python d)
      /\ (ty <- python_type canonical ;; sql_type ty) = Ok canonical
      /\ (s <- sql_type (python d) ;; python_type s) = Ok (python d)
      /\ (forall alias, In alias (sql d) ->
                        python_type alias = Ok (python d)))
  /\ (forall ty,
         (forall d, In d DATATYPES -> python d <> ty) ->
         sql_type ty
         = Raise (Exception_ ("received invalid type " ++ PyType.__name__ ty)))
  /\ (forall s,
         (forall d, In d DATATYPES -> ~ In s (sql d)) ->
         python_type s
         = Raise (Exception_ ("received invalid SQL type " ++ s))).
Proof.
  split; [| split].
  - intros d canonical Hd Hc.
    assert (Hround : sql_type (python d) = Ok canonical
                     /\ python_type canonical = Ok (python d)
                     /\ forall alias, In alias (sql d) ->
                                      python_type alias = Ok (python d)).
    { simpl in Hd.
      repeat (destruct Hd as [<- | Hd];
              [ simpl in Hc; injection Hc as <-;
                repeat split;
                intros alias Ha; simpl in Ha;
                repeat (destruct Ha as [<- | Ha]; [reflexivity |]);
                contradiction
              | ]).
      contradiction. }
    destruct Hround as (Hs & Hp & Ha).
    repeat split; auto.
    + now rewrite Hp.
    + now rewrite Hs.
  - intros ty Hty. now apply sql_type_from_unmapped.
  - intros s Hs. now apply python_type_from_unmapped.
Qed.

Lemma C5_type_map_round_trip_witness :
  (sql_type PyType.Tint = Ok "INTEGER"
   /\ python_type "INTEGER" = Ok PyType.Tint
   /\ python_type "BIGINT" = Ok PyType.Tint)
  /\ sql_type PyType.Tbool = Raise (Exception_ "received invalid type bool")
  /\ python_type "BLOB" = Raise (Exception_ "received invalid SQL type BLOB").
Proof.
  destruct C5_type_map_round_trip as (Hin & Hty & Hs).
  split; [| split].
  - destruct (Hin {| python := PyType.Tint; sql := ["INTEGER"; "BIGINT"] |}
                  "INTEGER") as (H1 & H2 & _ & _ & H3).
    + simpl. tauto.
    + reflexivity.
    + split; [exact H1 | split; [exact H2 |]].
      apply H3. simpl. tauto.
  - apply (Hty PyType.Tbool).
    intros d Hd. simpl in Hd.
    repeat (destruct Hd as [<- | Hd]; [simpl; discriminate |]).
    contradiction.
  - apply (Hs "BLOB").
    intros d Hd. simpl in Hd.
    repeat (destruct Hd as [<- | Hd];
            [simpl; intros H; repeat (destruct H as [H | H];
                                      [discriminate H |]); exact H |]).
    contradiction.
Defined.

(** ** Dicts *)

Lemma Dict_get_set_same {V} (d : Dict.t V) (k : string) (v : V) :
  Dict.get (Dict.set d k v) k = Some v.
Proof.
  unfold Dict.get, Dict.set.
  induction d as [| [k' v'] d IH]; simpl.
  - now rewrite String.eqb_refl.
  - destruct (String.eqb k' k) eqn:E; simpl; rewrite E; auto.
Qed.

Lemma Dict_get_set_other {V} (d : Dict.t V) (k j : string) (v : V) :
  k <> j -> Dict.get (Dict.set d k v) j = Dict.get d j.
Proof.
  intros Hkj. unfold Dict.get, Dict.set.
  induction d as [| [k' v'] d IH]; simpl.
  - destruct (String.eqb k j) eqn:E; [| reflexivity].
    apply String.eqb_eq in E. contradiction.
  - destruct (String.eqb k' k) eqn:E; simpl.
    + apply String.eqb_eq in E. subst k'.
      destruct (String.eqb k j) eqn:E'; [| reflexivity].
      apply String.eqb_eq in E'. contradiction.
    + now rewrite IH.
Qed.

Lemma Dict_get_values {V} (d : Dict.t V) (k : string) (v : V) :
  Dict.get d k = Some v -> In v (Dict.values d).
Proof.
  unfold Dict.get, Dict.values.
  induction d as [| [k' v'] d IH]; simpl; [discriminate |].
  destruct (String.eqb k' k); [intros [= ->]; auto | auto].
Qed.

Lemma Dict_keys_set {V} (d : Dict.t V) (k j : string) (v : V) :
  In j (Dict.keys d) -> In j (Dict.keys (Dict.set d k v)).
Proof.
  unfold Dict.keys, Dict.set.
  induction d as [| [k' v'] d IH]; simpl; [tauto |].
  intros [<- | H]; destruct (String.eqb k' k); simpl; auto.
Qed.

(** ** model.py: rendering *)

(** [to_sql] is an opening parenthesis followed by the literals of the
    instance's values, in the order of the mapping, separated by a comma
    and a space; nothing follows the last literal. *)
Lemma to_sql_unfold (_fields : Dict.t Field.t) (self : Model.t) :
  Model.to_sql _fields self
  = "(" ++ join ", " (map Model._sql_format (Model.values _fields self)).
Proof. unfold Model.to_sql, Model.values. now rewrite map_map. Qed.

(** C4. On the instance [{id: 1, name: 'a'}] of a class with the fields
    [id: int] and [name: str], [to_sql] returns the opening parenthesis and
    the literals but no closing parenthesis; [Database.save] appends the
    parenthesis itself. *)
Theorem C4_to_sql_leaves_the_tuple_open :
  Model.__init__ User_fields User [("id", VInt 1); ("name", VStr "a")]
  = Ok (user 1 "a")
  /\ Model.values User_fields (user 1 "a") = [VInt 1; VStr "a"]
  /\ Model.to_sql User_fields (user 1 "a") = "(1, 'a'"
  /\ Connection.executed
       (match Database.connection
                (snd (Database.save User_fields
                        (Database.__init__
                           [User]
                           (Some {| Connection.executed := [];
                                    Connection.commits := 0;
                                    Connection.replies := [] |}))
                        (user 1 "a")))
        with
        | Some conn => conn
        | None => {| Connection.executed := []; Connection.commits := 0;
                     Connection.replies := [] |}
        end)
     = ["INSERT INTO User (id, name) VALUES (1, 'a')"].
Proof. repeat split. Qed.

(** ** database.py: execute *)

(** C8. With no connection, [execute] raises [NotConnected] whatever the
    statement and the flags are, and the handler is left as it was: no
    connection exists that could have been sent a statement. *)
Theorem C8_execute_without_connection
        (self : Database.t) (query : string) (commit fetch fetch_one : bool) :
  Database.connection self = None ->
  Database.execute self query commit fetch fetch_one
  = (Raise NotConnected, self)
  /\ message NotConnected
     = "This database handler isn't connected to a database.".
Proof.
  intros H. unfold Database.execute. rewrite H. split; reflexivity.
Qed.

Lemma C8_execute_without_connection_witness :
  Database.execute (Database.__init__ [User] None)
                   "DROP TABLE User" true true false
  = (Raise NotConnected, Database.__init__ [User] None)
  /\ message NotConnected
     = "This database handler isn't connected to a database.".
Proof.
  apply (C8_execute_without_connection
           (Database.__init__ [User] None) "DROP TABLE User" true true false).
  reflexivity.
Defined.

(** ** database.py: cache admission *)

Lemma slice_to_bool {A} (l : list A) (b : bool) :
  slice_to l (Z.b2z b) = if b then firstn 1 l else [].
Proof. destruct b; reflexivity. Qed.

(** C1. With limit 2 and an empty bucket, admitting three distinct
    instances leaves the first one alone in the bucket, where the claim
    expects the first two; a second call with the rest admits one more. *)
Theorem C1_add_to_cache_admits_one_object :
  Database.caching_on (db_with_bucket 2) User = true
  /\ Database.add_to_cache User_fields (db_with_bucket 2) User
       [user 1 "a"; user 2 "b"; user 3 "c"]
     = (Ok tt,
        Database.set_bucket (db_with_bucket 2) User [user 1 "a"])
  /\ Database.cache
       (snd (Database.add_to_cache User_fields (db_with_bucket 2) User
               [user 1 "a"; user 2 "b"; user 3 "c"]))
     = [(User, [user 1 "a"])]
  /\ Database.cache
       (snd (Database.add_to_cache User_fields
               (Database.set_bucket (db_with_bucket 2) User [user 1 "a"])
               User [user 2 "b"; user 3 "c"]))
     = [(User, [user 1 "a"; user 2 "b"])].
Proof. repeat split. Qed.

(** X1. Whatever the limit and the bucket, [add_to_cache] behaves on a
    list of objects as it does on the list's first object alone. *)
Theorem add_to_cache_reads_first_object_only
        (_fields : Dict.t Field.t) (self : Database.t) (model : Class.t)
        (objects : list Model.t) :
  Database.add_to_cache _fields self model objects
  = Database.add_to_cache _fields self model (firstn 1 objects).
Proof.
  unfold Database.add_to_cache.
  destruct (assoc_get Class.eqb (Database.cache self) model) as [bucket |];
    [| reflexivity].
  destruct (Database.limit (Database.cache_config self)) as [limit |];
    [| reflexivity].
  destruct (limit - Z.of_nat (length bucket) >? 0)%Z eqn:E; [| reflexivity].
  rewrite !slice_to_bool. now rewrite firstn_firstn.
Qed.


(** ** model.py: the shared field mapping *)

(** C2. Declaring [User] and then [Post] leaves one mapping, reached from
    both classes, that holds the fields of both: [Post]'s mapping is not
    the fields declared on [Post], and [User]'s mapping changed when
    [Post] was declared. *)
Theorem C2_fields_mapping_is_shared :
  let f1 := snd (Model.__init_subclass__ User []) in
  let f2 := snd (Model.__init_subclass__ Post f1) in
  Dict.keys (Model._fields_of f1 User) = ["id"; "name"]
  /\ Dict.keys (Model._fields_of f2 Post) = ["id"; "name"; "title"]
  /\ Dict.keys (Model._fields_of f2 User) = ["id"; "name"; "title"]
  /\ Model.to_sql_table f2 Post = "Post (id INTEGER, name TEXT, title TEXT)"
  /\ Model.to_sql_table f2 User = "User (id INTEGER, name TEXT, title TEXT)".
Proof. repeat split. Qed.

Lemma init_fields_keeps_keys (cls : Class.t)
      (annotations : list (string * FieldType)) (_fields : Dict.t Field.t)
      (k : string) :
  In k (Dict.keys _fields) ->
  In k (Dict.keys (snd (Model.init_fields cls annotations _fields))).
Proof.
  revert _fields.
  induction annotations as [| [name type] rest IH]; intros _fields Hk;
    simpl; [exact Hk |].
  destruct (Class.getattr cls name VNone) eqn:Hd;
    try (destruct (Field.__init__ name type _);
         [apply IH; now apply Dict_keys_set | exact Hk]).
  apply IH. now apply Dict_keys_set.
Qed.

(** X3. Declaring a class never removes a key from the shared mapping:
    the fields of the classes declared before stay in the mapping that the
    new class reads as its own. *)
Theorem __init_subclass___keeps_keys
        (cls : Class.t) (_fields : Dict.t Field.t) (k : string) :
  In k (Dict.keys _fields) ->
  In k (Dict.keys
          (Model._fields_of (snd (Model.__init_subclass__ cls _fields)) cls)).
Proof. apply init_fields_keeps_keys. Qed.

Lemma __init_subclass___keeps_keys_witness :
  In "id"
     (Dict.keys
        (Model._fields_of (snd (Model.__init_subclass__ Post User_fields))
                          Post)).
Proof.
  apply (@__init_subclass___keeps_keys Post User_fields "id").
  simpl. tauto.
Defined.

(** ** model.py: equality *)

Lemma values_unfold (_fields : Dict.t Field.t) (self : Model.t) :
  Model.values _fields self
  = map (Model._get_value self) (Dict.values _fields).
Proof. reflexivity. Qed.

Lemma __eq___same_class (_fields : Dict.t Field.t) (a b : Model.t) :
  Class.eqb (Model.cls b) (Model.cls a) = true ->
  Model.__eq__ _fields a b
  = forallb (fun field => elem_eq (Model._get_value a field)
                                  (Model._get_value b field))
            (Dict.values _fields).
Proof.
  intros H. unfold Model.__eq__. rewrite H. simpl.
  rewrite !values_unfold. apply tuple_eq_map.
Qed.

(** What [_get_value] reads for a field: the instance's attribute of the
    Field's name, else the class attribute of that name, else the Field's
    default. *)
Lemma _get_value_reads (self : Model.t) (field : Field.t) :
  Model._get_value self field
  = match Dict.get (Model.attrs self) (Field.name field) with
    | Some v => v
    | None =>
        match Dict.get (Class.__dict__ (Model.cls self))
                       (Field.name field) with
        | Some v => v
        | None => Field.default field
        end
    end.
Proof. reflexivity. Qed.




(** ** database.py: lookups in the cache *)

Lemma scan_Some (bucket : list Model.t) (values : list (string * Value))
      (object : Model.t) :
  Database.scan bucket values = Some object
  <-> exists before after,
      bucket = (before ++ object :: after)%list
      /\ Database.matches object values = true
      /\ Forall (fun o => Database.matches o values = false) before.
Proof.
  induction bucket as [| o rest IH]; simpl.
  - split; [discriminate |].
    intros (before & after & H & _). now destruct before.
  - destruct (Database.matches o values) eqn:Hm.
    + split.
      * intros [= <-]. exists [], rest. auto.
      * intros (before & after & H & Hobj & Hbefore).
        destruct before as [| o' before]; simpl in H.
        -- congruence.
        -- injection H as <- _. inversion Hbefore; congruence.
    + rewrite IH. split.
      * intros (before & after & -> & Hobj & Hbefore).
        exists (o :: before), after. auto.
      * intros (before & after & H & Hobj & Hbefore).
        destruct before as [| o' before]; simpl in H.
        -- injection H as <- _. congruence.
        -- injection H as <- ->. inversion Hbefore. eauto.
Qed.

Lemma scan_None (bucket : list Model.t) (values : list (string * Value)) :
  Database.scan bucket values = None
  <-> Forall (fun o => Database.matches o values = false) bucket.
Proof.
  induction bucket as [| o rest IH]; simpl.
  - split; auto.
  - destruct (Database.matches o values) eqn:Hm.
    + split; [discriminate |]. inversion 1; congruence.
    + rewrite IH. split; [auto | now inversion 1].
Qed.

Lemma caching_on_bucket (self : Database.t) (model : Class.t) :
  Database.caching_on self model = true ->
  Database.on (Database.cache_config self) = true
  /\ exists bucket,
      assoc_get Class.eqb (Database.cache self) model = Some bucket.
Proof.
  unfold Database.caching_on, Database.in_cache.
  intros H. apply andb_true_iff in H. destruct H as [Hon Hin].
  split; [exact Hon |].
  destruct (assoc_get Class.eqb (Database.cache self) model) as [bucket |];
    [eauto | discriminate].
Qed.

(** [v == v]: every value but a NaN equals itself. *)
Lemma py_eq_self (v : Value) : py_eq v v = negb (is_nan v).
Proof.
  destruct v as [s | z | b | | addr x text | addr f]; simpl;
    auto using String.eqb_refl, Z.eqb_refl, Bool.eqb_reflx, N.eqb_refl.
  destruct x as [| neg | neg m e]; simpl;
    auto using Bool.eqb_reflx, Z.eqb_refl.
Qed.




(** ** model.py: validated assignment *)

Lemma set_values_accepted_prefix (_fields : Dict.t Field.t)
      (before rest : list (string * Value)) (self : Model.t) :
  Forall (accepted _fields) before ->
  Model.set_values _fields (before ++ rest) self
  = Model.set_values _fields rest (store_all before self).
Proof.
  intros H. revert self.
  induction H as [| [name value] before (field & Hget & Hinst) _ IH];
    intros self; simpl; [reflexivity |].
  simpl in Hget, Hinst. unfold Model._fields_of.
  rewrite Hget, Hinst. apply IH.
Qed.

Lemma set_values_all_accepted (_fields : Dict.t Field.t)
      (new_values : list (string * Value)) (self : Model.t) :
  Forall (accepted _fields) new_values ->
  Model.set_values _fields new_values self
  = (Ok tt, store_all new_values self).
Proof.
  intros H.
  rewrite <- (app_nil_r new_values) at 1.
  now rewrite set_values_accepted_prefix.
Qed.

Lemma store_all_cls (new_values : list (string * Value)) (self : Model.t) :
  Model.cls (store_all new_values self) = Model.cls self.
Proof.
  revert self. induction new_values as [| kv rest IH]; intros self; simpl;
    [reflexivity | now rewrite IH].
Qed.

Lemma store_all_get_other (new_values : list (string * Value))
      (self : Model.t) (k : string) :
  ~ In k (map fst new_values) ->
  Dict.get (Model.attrs (store_all new_values self)) k
  = Dict.get (Model.attrs self) k.
Proof.
  revert self.
  induction new_values as [| [name value] rest IH]; intros self Hk; simpl;
    [reflexivity |].
  simpl in Hk. rewrite IH by tauto. simpl.
  apply Dict_get_set_other. tauto.
Qed.

Lemma store_all_get (new_values : list (string * Value)) (self : Model.t)
      (k : string) (v : Value) :
  NoDup (map fst new_values) -> In (k, v) new_values ->
  Dict.get (Model.attrs (store_all new_values self)) k = Some v.
Proof.
  revert self.
  induction new_values as [| [name value] rest IH]; intros self Hnd Hin;
    simpl in *; [contradiction |].
  inversion Hnd as [| ? ? Hnotin Hnd']; subst.
  destruct Hin as [[= -> ->] | Hin].
  - rewrite store_all_get_other by exact Hnotin. simpl.
    apply Dict_get_set_same.
  - now apply IH.
Qed.

(** What [set_values] does at the first keyword that is not accepted,
    and when every keyword is accepted. *)
Lemma set_values_first_refused (_fields : Dict.t Field.t) (self : Model.t)
      (before after : list (string * Value)) (name : string)
      (value : Value) :
  Forall (accepted _fields) before ->
  Model.set_values _fields (before ++ (name, value) :: after) self
  = match Dict.get _fields name with
    | None => (Raise (FieldDoesNotExist name), store_all before self)
    | Some field =>
        if isinstance value (Field.type field)
        then Model.set_values _fields after
               (Model.setattr (store_all before self) name value)
        else (Raise (BadValue (Field.name field)
                              (PyType.__name__ (Field.type field))),
              store_all before self)
    end.
Proof.
  intros H. rewrite set_values_accepted_prefix by exact H. simpl.
  unfold Model._fields_of.
  destruct (Dict.get _fields name) as [field |]; [| reflexivity].
  destruct (isinstance value (Field.type field)); reflexivity.
Qed.

(** Every list of keywords is accepted as a whole or splits at its first
    keyword that is not accepted. *)
Lemma keywords_split (_fields : Dict.t Field.t)
      (new_values : list (string * Value)) :
  Forall (accepted _fields) new_values
  \/ exists before name value after,
      new_values = (before ++ (name, value) :: after)%list
      /\ Forall (accepted _fields) before
      /\ (Dict.get _fields name = None
          \/ exists field,
             Dict.get _fields name = Some field
             /\ isinstance value (Field.type field) = false).
Proof.
  induction new_values as [| [name value] rest IH]; [left; constructor |].
  destruct (Dict.get _fields name) as [field |] eqn:Hget.
  - destruct (isinstance value (Field.type field)) eqn:Hinst.
    + assert (Hacc : accepted _fields (name, value))
        by (exists field; auto).
      destruct IH as [Hall | (before & n & v & after & -> & Hb & Hr)].
      * left. now constructor.
      * right. exists ((name, value) :: before), n, v, after.
        split; [reflexivity |]. split; [now constructor | exact Hr].
    + right. exists [], name, value, rest.
      split; [reflexivity |]. split; [constructor |]. right. eauto.
  - right. exists [], name, value, rest.
    split; [reflexivity |]. split; [constructor |]. now left.
Qed.

(** C6. The mapping [set_values] consults is the one dict all model
    classes share, not the fields of the instance's class.  With [User]
    alone declared, [User(id=1)] is built and [User(title='t')] raises
    [FieldDoesNotExist].  Once [Note] has declared [id: str], [User(id=1)]
    raises [BadValue] for [id] with the type [str], and [User(id='one')]
    is built, the string stored in the field [User] declared as [int];
    once [Post] has declared [title], [User(title='t')] is built. *)
Theorem C6_validation_uses_shared_mapping :
  let after_Note := snd (Model.__init_subclass__ Note User_fields) in
  let after_Post := snd (Model.__init_subclass__ Post User_fields) in
  Class.__annotations__ User
  = [("id", OfType PyType.Tint); ("name", OfType PyType.Tstr)]
  /\ Model.__init_subclass__ User [] = (Ok tt, User_fields)
  /\ Model.__init__ User_fields User [("id", VInt 1)]
     = Ok {| Model.cls := User; Model.attrs := [("id", VInt 1)] |}
  /\ Model.__init__ User_fields User [("title", VStr "t")]
     = Raise (FieldDoesNotExist "title")
  /\ fst (Model.__init_subclass__ Note User_fields) = Ok tt
  /\ Model.__init__ after_Note User [("id", VInt 1)]
     = Raise (BadValue "id" "str")
  /\ Model.__init__ after_Note User [("id", VStr "one")]
     = Ok {| Model.cls := User; Model.attrs := [("id", VStr "one")] |}
  /\ fst (Model.__init_subclass__ Post User_fields) = Ok tt
  /\ Model.__init__ after_Post User [("title", VStr "t")]
     = Ok {| Model.cls := User; Model.attrs := [("title", VStr "t")] |}.
Proof. repeat split. Qed.

(** X24. Against the shared mapping, whatever it holds, and for keywords
    that [Model] does not define itself, the keywords are checked in the
    order given.  At the first one that is not accepted, [set_values] (and
    so the constructor) raises: [FieldDoesNotExist] with the keyword when
    the mapping has no field of that name, [BadValue] with the field's
    name and the name of its type when the value is not an instance of
    that type.  When every keyword is accepted and no keyword is given
    twice, nothing is raised and each value is stored as given. *)
Theorem set_values_validates_against_mapping
        (_fields : Dict.t Field.t) (self : Model.t)
        (before after : list (string * Value))
        (name : string) (value : Value) :
  Forall (accepted _fields) before ->
  let new_values := (before ++ (name, value) :: after)%list in
  Forall (fun kv => reserved (fst kv) = false) new_values ->
  (Dict.get _fields name = None ->
   fst (Model.set_values _fields new_values self)
   = Raise (FieldDoesNotExist name)
   /\ Model.__init__ _fields (Model.cls self) new_values
      = Raise (FieldDoesNotExist name))
  /\ (forall field,
         Dict.get _fields name = Some field ->
         isinstance value (Field.type field) = false ->
         fst (Model.set_values _fields new_values self)
         = Raise (BadValue (Field.name field)
                           (PyType.__name__ (Field.type field)))
         /\ Model.__init__ _fields (Model.cls self) new_values
            = Raise (BadValue (Field.name field)
                              (PyType.__name__ (Field.type field))))
  /\ (forall field,
         Dict.get _fields name = Some field ->
         isinstance value (Field.type field) = true ->
         Forall (accepted _fields) after ->
         NoDup (map fst new_values) ->
         (exists self',
             Model.set_values _fields new_values self = (Ok tt, self')
             /\ Model.cls self' = Model.cls self
             /\ Dict.get (Model.attrs self') name = Some value
             /\ Model.getattr self' name VNone = value)
         /\ (exists object,
                Model.__init__ _fields (Model.cls self) new_values
                = Ok object
                /\ Model.cls object = Model.cls self
                /\ Dict.get (Model.attrs object) name = Some value
                /\ forall k v, In (k, v) new_values ->
                               Dict.get (Model.attrs object) k = Some v)).
Proof.
  intros Hbefore new_values _. subst new_values.
  split; [| split].
  - intros Hget. unfold Model.__init__.
    rewrite !set_values_first_refused by exact Hbefore.
    rewrite Hget. auto.
  - intros field Hget Hinst. unfold Model.__init__.
    rewrite !set_values_first_refused by exact Hbefore.
    rewrite Hget, Hinst. auto.
  - intros field Hget Hinst Hafter Hnd.
    assert (Hall : Forall (accepted _fields)
                          (before ++ (name, value) :: after)%list).
    { apply Forall_app. split; [exact Hbefore |].
      constructor; [exists field; auto | exact Hafter]. }
    assert (Hin : In (name, value) (before ++ (name, value) :: after)%list).
    { apply in_or_app. right. now left. }
    split.
    + exists (store_all (before ++ (name, value) :: after)%list self).
      split; [now apply set_values_all_accepted |].
      split; [apply store_all_cls |].
      assert (Hs : Dict.get
                     (Model.attrs
                        (store_all (before ++ (name, value) :: after)%list
                                   self)) name = Some value)
        by now apply store_all_get.
      split; [exact Hs |]. unfold Model.getattr. now rewrite Hs.
    + unfold Model.__init__. rewrite set_values_all_accepted by exact Hall.
      eexists. split; [reflexivity |].
      split; [now rewrite store_all_cls |].
      split; [now apply store_all_get |].
      intros k v Hkv. now apply store_all_get.
Qed.

Lemma set_values_validates_against_mapping_witness :
  Model.__init__ User_fields User [("id", VInt 1); ("age", VInt 7)]
  = Raise (FieldDoesNotExist "age")
  /\ Model.__init__ User_fields User [("id", VInt 1); ("name", VInt 7)]
     = Raise (BadValue "name" "str")
  /\ message (BadValue "name" "str")
     = "received wrong value type for field name, expected str"
  /\ exists object,
      Model.__init__ User_fields User [("id", VInt 1); ("name", VStr "a")]
      = Ok object
      /\ Dict.get (Model.attrs object) "name" = Some (VStr "a").
Proof.
  assert (Hid : Forall (accepted User_fields) [("id", VInt 1)]).
  { constructor; [| constructor].
    exists (mkField "id" PyType.Tint "INTEGER" VNone). split; reflexivity. }
  pose (self := {| Model.cls := User; Model.attrs := [] |}).
  split; [| split; [| split]].
  - destruct (@set_values_validates_against_mapping
                User_fields self [("id", VInt 1)] [] "age" (VInt 7) Hid)
      as (H & _); [repeat constructor |].
    apply H. reflexivity.
  - destruct (@set_values_validates_against_mapping
                User_fields self [("id", VInt 1)] [] "name" (VInt 7) Hid)
      as (_ & H & _); [repeat constructor |].
    apply (H (mkField "name" PyType.Tstr "TEXT" VNone)); reflexivity.
  - reflexivity.
  - destruct (@set_values_validates_against_mapping
                User_fields self [("id", VInt 1)] [] "name" (VStr "a") Hid)
      as (_ & _ & H); [repeat constructor |].
    destruct (H (mkField "name" PyType.Tstr "TEXT" VNone))
      as (_ & object & Hobj & _ & Hname & _).
    + reflexivity.
    + reflexivity.
    + constructor.
    + simpl. repeat constructor; simpl; intuition discriminate.
    + exists object. split; [exact Hobj | exact Hname].
Defined.

(** ** model.py: a Field object as the attribute's default *)

Lemma field_is_not_its_default (addr : N) (F : Field.t) :
  VField addr F <> Field.default F.
Proof.
  intros H. apply (f_equal depth) in H.
  destruct F as [n ty s d]. simpl in H. lia.
Qed.

(** Once the loop of [__init_subclass__] has met an annotation whose
    class attribute is a Field object, the mapping holds that object under
    the annotation's name until the loop ends. *)
Lemma init_fields_reuses_field (cls : Class.t) (attr : string) (addr : N)
      (F : Field.t) (annotations : list (string * FieldType))
      (_fields _fields' : Dict.t Field.t) :
  Dict.get (Class.__dict__ cls) attr = Some (VField addr F) ->
  Model.init_fields cls annotations _fields = (Ok tt, _fields') ->
  In attr (map fst annotations) \/ Dict.get _fields attr = Some F ->
  Dict.get _fields' attr = Some F.
Proof.
  intros Hattr. revert _fields.
  induction annotations as [| [name type] rest IH]; intros _fields Hrun Hin;
    simpl in *.
  - injection Hrun as <-. tauto.
  - destruct (String.eqb name attr) eqn:E.
    + apply String.eqb_eq in E. subst name.
      unfold Class.getattr in Hrun. rewrite Hattr in Hrun.
      apply (IH _ Hrun). right. apply Dict_get_set_same.
    + apply String.eqb_neq in E.
      assert (Hstep : forall field,
                 Model.init_fields cls rest (Dict.set _fields name field)
                 = (Ok tt, _fields') ->
                 Dict.get _fields' attr = Some F).
      { intros field Hrun'. apply (IH _ Hrun').
        destruct Hin as [[Heq | Hin] | Hget]; [contradiction | auto |].
        right. now rewrite Dict_get_set_other. }
      destruct (Class.getattr cls name VNone);
        try (destruct (Field.__init__ name type _);
             [eauto | discriminate]).
      eauto.
Qed.


(** A class statement leaves the entries of the names it does not
    annotate as they were, also when it raises half way. *)
Lemma init_fields_get_other (cls : Class.t) (attr : string)
      (annotations : list (string * FieldType)) (_fields : Dict.t Field.t) :
  ~ In attr (map fst annotations) ->
  Dict.get (snd (Model.init_fields cls annotations _fields)) attr
  = Dict.get _fields attr.
Proof.
  revert _fields.
  induction annotations as [| [name type] rest IH]; intros _fields Hnot;
    simpl in *; [reflexivity |].
  assert (Hne : name <> attr) by tauto.
  assert (Hrest : ~ In attr (map fst rest)) by tauto.
  assert (Hstep : forall field,
             Dict.get (snd (Model.init_fields cls rest
                                              (Dict.set _fields name field)))
                      attr
             = Dict.get _fields attr).
  { intros field. rewrite (IH _ Hrest). now apply Dict_get_set_other. }
  destruct (Class.getattr cls name VNone);
    try (destruct (Field.__init__ name type _); [apply Hstep | reflexivity]).
  apply Hstep.
Qed.



(** The mapping loses the object when a later class statement annotates
    the same name: after [Renamed], an instance of [Account] reports the
    default of the Field that [Renamed] stored. *)
Lemma Account_values_after_Renamed :
  let declared := snd (Model.__init_subclass__ Account []) in
  let redeclared := snd (Model.__init_subclass__ Renamed declared) in
  Model.values declared (blank Account) = [VField 4096 id_field]
  /\ Dict.get redeclared "id" = Some ident_field
  /\ Model.values redeclared (blank Account) = [VInt 0].
Proof. repeat split. Qed.

(** ** database.py: the cache mapping over a session *)

Lemma execute_cache (self : Database.t) (query : string)
      (commit fetch fetch_one : bool) :
  Database.cache (snd (Database.execute self query commit fetch fetch_one))
  = Database.cache self.
Proof.
  unfold Database.execute.
  destruct (Database.connection self) as [conn |]; [| reflexivity].
  destruct (Connection.execute conn query) as [[cursor | e] conn'];
    [| reflexivity].
  destruct (fetch || fetch_one); reflexivity.
Qed.

Lemma unit_of_snd (r : result Fetched * Database.t) :
  snd (Database.unit_of r) = snd r.
Proof. now destruct r as [[? | ?] ?]. Qed.

Lemma create_tables_from_cache (_fields : Dict.t Field.t)
      (models : list Class.t) (self : Database.t) :
  Database.cache (snd (Database.create_tables_from _fields models self))
  = Database.cache self.
Proof.
  revert self. induction models as [| model rest IH]; intros self; simpl;
    [reflexivity |].
  match goal with
  | |- context [Database.execute ?s ?q ?c ?f ?o] =>
      pose proof (execute_cache s q c f o) as He;
      destruct (Database.execute s q c f o) as [[fetched | e] self']
  end; simpl in He |- *.
  - now rewrite IH.
  - exact He.
Qed.

Lemma connect_cache (aiosqlite_connect : string -> result Connection.t)
      (_fields : Dict.t Field.t) (self : Database.t) (url : string)
      (create_tables : bool) :
  Database.cache
    (snd (Database.connect aiosqlite_connect _fields self url create_tables))
  = Database.cache self.
Proof.
  unfold Database.connect.
  destruct (aiosqlite_connect url) as [conn | e]; [| reflexivity].
  destruct create_tables; [| reflexivity].
  unfold Database.create_tables.
  match goal with
  | |- context [Database.create_tables_from ?f ?m ?s] =>
      pose proof (create_tables_from_cache f m s) as Hc;
      destruct (Database.create_tables_from f m s) as [[u | e] self']
  end; exact Hc.
Qed.

Lemma add_to_cache_without_bucket (_fields : Dict.t Field.t)
      (self : Database.t) (model : Class.t) (objects : list Model.t) :
  Database.cache self = [] ->
  Database.add_to_cache _fields self model objects
  = (Raise (KeyError (Class.__name__ model)), self).
Proof. intros H. unfold Database.add_to_cache. now rewrite H. Qed.

Lemma caching_on_without_bucket (self : Database.t) (model : Class.t) :
  Database.cache self = [] -> Database.caching_on self model = false.
Proof.
  intros H. unfold Database.caching_on, Database.in_cache. rewrite H.
  apply andb_false_r.
Qed.

Lemma fetch_all_cache (_fields : Dict.t Field.t) (self : Database.t)
      (model : Class.t) (values : list (string * Value)) :
  Database.cache self = [] ->
  Database.cache (snd (Database.fetch_all _fields self model values)) = [].
Proof.
  intros H. unfold Database.fetch_all.
  match goal with
  | |- context [Database.execute ?s ?q ?c ?f ?o] =>
      pose proof (execute_cache s q c f o) as He;
      destruct (Database.execute s q c f o) as [[fetched | e] self']
  end; simpl in He; rewrite H in He; [| exact He].
  match goal with
  | |- context [bind ?r ?k] => destruct (bind r k) as [objects | e]
  end; [| exact He].
  now rewrite (caching_on_without_bucket _ model He).
Qed.

Lemma fetch_cache (_fields : Dict.t Field.t) (self : Database.t)
      (model : Class.t) (values : list (string * Value)) :
  Database.cache self = [] ->
  Database.cache (snd (Database.fetch _fields self model values)) = [].
Proof.
  intros H. unfold Database.fetch.
  match goal with
  | |- context [Database.execute ?s ?q ?c ?f ?o] =>
      pose proof (execute_cache s q c f o) as He;
      destruct (Database.execute s q c f o) as [[fetched | e] self']
  end; simpl in He; rewrite H in He; [| exact He].
  match goal with
  | |- context [bind ?r ?k] => destruct (bind r k) as [object | e]
  end; [| exact He].
  now rewrite (caching_on_without_bucket _ model He).
Qed.

Lemma get_without_bucket (self : Database.t) (model : Class.t)
      (values : list (string * Value)) :
  Database.cache self = [] -> Database.get self model values = None.
Proof.
  intros H. unfold Database.get.
  now rewrite (caching_on_without_bucket _ model H).
Qed.

Lemma model_cache (_fields : Dict.t Field.t) (self : Database.t)
      (new_id : N) (cls : Class.t) :
  Database.cache (snd (snd (Database.model _fields self new_id cls)))
  = Database.cache self.
Proof.
  unfold Database.model.
  destruct (Class.derives_Model cls); [reflexivity |].
  match goal with
  | |- context [Model.__init_subclass__ ?c ?f] =>
      destruct (Model.__init_subclass__ c f) as [[u | e] f']
  end; reflexivity.
Qed.

Lemma __init___cache (models : list Class.t)
      (connection : option Connection.t) :
  Database.cache (Database.__init__ models connection) = [].
Proof.
  unfold Database.__init__.
  match goal with
  | |- Database.cache (fold_left _ _ ?s) = _ =>
      assert (H : Database.cache s = []) by reflexivity; revert H;
      generalize s
  end.
  induction models as [| model rest IH]; intros s H; simpl; [exact H |].
  now apply IH.
Qed.

Section SessionFacts.
Variable aiosqlite_connect : string -> result Connection.t.

Lemma step_cache (w : World) (c : Call) :
  Database.cache (db w) = [] ->
  Database.cache (db (step aiosqlite_connect w c)) = [].
Proof.
  intros H. destruct c; simpl; auto.
  - now rewrite add_to_cache_without_bucket.
  - now rewrite model_cache.
  - now rewrite connect_cache.
  - unfold Database.create_tables. now rewrite create_tables_from_cache.
  - now rewrite execute_cache.
  - unfold Database.save. now rewrite unit_of_snd, execute_cache.
  - unfold Database.delete. now rewrite unit_of_snd, execute_cache.
  - unfold Database.update. now rewrite unit_of_snd, execute_cache.
  - now apply fetch_all_cache.
  - now apply fetch_cache.
  - unfold Database.get_or_fetch.
    rewrite (get_without_bucket _ _ _ H). now apply fetch_cache.
Qed.

Lemma run_cache (calls : list Call) (w : World) :
  Database.cache (db w) = [] ->
  Database.cache (db (run aiosqlite_connect w calls)) = [].
Proof.
  revert w. induction calls as [| c rest IH]; intros w H; simpl;
    [exact H |].
  apply IH. now apply step_cache.
Qed.

(** C3. Whatever calls were made on a handler since it was created, its
    cache mapping has no bucket.  So caching is on for no model, also
    right after [set_caching]; [get] returns [None]; [fetch] and
    [fetch_all] leave the mapping empty; and a direct [add_to_cache]
    raises [KeyError] without changing the handler. *)
Theorem C3_cache_never_has_a_bucket
        (_fields : Dict.t Field.t) (models : list Class.t)
        (connection : option Connection.t) (calls : list Call) :
  let w := run aiosqlite_connect
               {| Model_fields := _fields;
                  db := Database.__init__ models connection |} calls in
  Database.cache (db w) = []
  /\ (forall model, Database.caching_on (db w) model = false)
  /\ (forall limit model,
         Database.caching_on (Database.set_caching (db w) true limit) model
         = false)
  /\ (forall model values, Database.get (db w) model values = None)
  /\ (forall model values,
         Database.cache
           (snd (Database.fetch (Model_fields w) (db w) model values))
         = [])
  /\ (forall model values,
         Database.cache
           (snd (Database.fetch_all (Model_fields w) (db w) model values))
         = [])
  /\ (forall model objects,
         Database.add_to_cache (Model_fields w) (db w) model objects
         = (Raise (KeyError (Class.__name__ model)), db w)).
Proof.
  intros w.
  assert (H : Database.cache (db w) = []).
  { apply run_cache. apply __init___cache. }
  repeat split.
  - exact H.
  - intros model. now apply caching_on_without_bucket.
  - intros limit model. now apply caching_on_without_bucket.
  - intros model values. now apply get_without_bucket.
  - intros model values. now apply fetch_cache.
  - intros model values. now apply fetch_all_cache.
  - intros model objects. now apply add_to_cache_without_bucket.
Qed.
End SessionFacts.

(** ** database.py: what one admission does *)

Lemma Class_eqb_refl (c : Class.t) : Class.eqb c c = true.
Proof. apply N.eqb_refl. Qed.

Lemma cache_get_set_same (cache : list (Class.t * list Model.t))
      (model : Class.t) (bucket : list Model.t) :
  assoc_get Class.eqb (assoc_set Class.eqb cache model bucket) model
  = Some bucket.
Proof.
  induction cache as [| [k v] d IH]; simpl.
  - now rewrite Class_eqb_refl.
  - destruct (Class.eqb k model) eqn:E; simpl; rewrite E; auto.
Qed.

Lemma cache_get_set_other (cache : list (Class.t * list Model.t))
      (model other : Class.t) (bucket : list Model.t) :
  Class.eqb other model = false ->
  assoc_get Class.eqb (assoc_set Class.eqb cache model bucket) other
  = assoc_get Class.eqb cache other.
Proof.
  unfold Class.eqb. intros Hne. apply N.eqb_neq in Hne.
  induction cache as [| [k v] d IH]; simpl.
  - destruct (N.eqb (Class.id model) (Class.id other)) eqn:E;
      [| reflexivity].
    apply N.eqb_eq in E. congruence.
  - destruct (N.eqb (Class.id k) (Class.id model)) eqn:E; simpl.
    + apply N.eqb_eq in E.
      destruct (N.eqb (Class.id k) (Class.id other)) eqn:E';
        [| reflexivity].
      apply N.eqb_eq in E'. congruence.
    + now rewrite IH.
Qed.

Lemma cache_set_same (cache : list (Class.t * list Model.t))
      (model : Class.t) (bucket : list Model.t) :
  assoc_get Class.eqb cache model = Some bucket ->
  assoc_set Class.eqb cache model bucket = cache.
Proof.
  induction cache as [| [k v] d IH]; simpl; [discriminate |].
  destruct (Class.eqb k model); [now intros [= ->] |].
  intros H. now rewrite IH.
Qed.

Lemma set_bucket_same (self : Database.t) (model : Class.t)
      (bucket : list Model.t) :
  assoc_get Class.eqb (Database.cache self) model = Some bucket ->
  Database.set_bucket self model bucket = self.
Proof.
  intros H. unfold Database.set_bucket. rewrite (cache_set_same _ _ H).
  now destruct self.
Qed.

Lemma __eq___refl (_fields : Dict.t Field.t) (self : Model.t) :
  Model.__eq__ _fields self self = true.
Proof.
  unfold Model.__eq__. now rewrite Class_eqb_refl, tuple_eq_refl.
Qed.

Lemma contains_last (_fields : Dict.t Field.t) (bucket : list Model.t)
      (object : Model.t) :
  Database.contains _fields (bucket ++ [object])%list object = true.
Proof.
  unfold Database.contains. rewrite existsb_app. simpl.
  rewrite __eq___refl. now rewrite orb_true_r.
Qed.

(** The loop of [add_to_cache] on the one object the slice leaves. *)
Lemma append_new_first (_fields : Dict.t Field.t)
      (objects bucket : list Model.t) :
  Database.append_new _fields (firstn 1 objects) bucket
  = match objects with
    | [] => bucket
    | object :: _ =>
        if Database.contains _fields bucket object then bucket
        else (bucket ++ [object])%list
    end.
Proof.
  destruct objects as [| object rest]; simpl; [reflexivity |].
  now destruct (Database.contains _fields bucket object).
Qed.

(** X2. [add_to_cache] raises [KeyError] for a model without a bucket and
    [TypeError] when the limit was never set.  Otherwise it returns
    normally and the model's bucket is either unchanged or gained the
    first object at its end, the latter only when the bucket was below the
    limit and held no equal object; so a bucket never grows past the
    limit, and nothing else of the handler changes. *)
Theorem add_to_cache_effect
        (_fields : Dict.t Field.t) (self : Database.t) (model : Class.t)
        (objects : list Model.t) :
  (assoc_get Class.eqb (Database.cache self) model = None ->
   Database.add_to_cache _fields self model objects
   = (Raise (KeyError (Class.__name__ model)), self))
  /\ (forall bucket,
         assoc_get Class.eqb (Database.cache self) model = Some bucket ->
         Database.limit (Database.cache_config self) = None ->
         exists text,
           Database.add_to_cache _fields self model objects
           = (Raise (TypeError text), self))
  /\ (forall bucket limit,
         assoc_get Class.eqb (Database.cache self) model = Some bucket ->
         Database.limit (Database.cache_config self) = Some limit ->
         let r := Database.add_to_cache _fields self model objects in
         exists bucket',
           fst r = Ok tt
           /\ assoc_get Class.eqb (Database.cache (snd r)) model
              = Some bucket'
           /\ (bucket' = bucket
               \/ exists object rest,
                  objects = object :: rest
                  /\ (Z.of_nat (length bucket) < limit)%Z
                  /\ Database.contains _fields bucket object = false
                  /\ bucket' = (bucket ++ [object])%list)
           /\ (Z.of_nat (length bucket')
               <= Z.max (Z.of_nat (length bucket)) limit)%Z
           /\ Database.models (snd r) = Database.models self
           /\ Database.connection (snd r) = Database.connection self
           /\ Database.cache_config (snd r) = Database.cache_config self
           /\ forall other,
               Class.eqb other model = false ->
               assoc_get Class.eqb (Database.cache (snd r)) other
               = assoc_get Class.eqb (Database.cache self) other).
Proof.
  split; [| split].
  - intros H. unfold Database.add_to_cache. now rewrite H.
  - intros bucket Hb Hl. unfold Database.add_to_cache. rewrite Hb, Hl.
    eauto.
  - intros bucket limit Hb Hl r. subst r.
    unfold Database.add_to_cache. rewrite Hb, Hl.
    destruct (limit - Z.of_nat (length bucket) >? 0)%Z eqn:E;
      cbv beta zeta iota.
    + rewrite slice_to_bool, append_new_first.
      apply Z.gtb_lt in E.
      match goal with
      | |- context [Database.set_bucket self model ?b] => exists b
      end.
      simpl. rewrite cache_get_set_same.
      split; [reflexivity |]. split; [reflexivity |].
      split.
      { destruct objects as [| object rest]; [now left |].
        destruct (Database.contains _fields bucket object) eqn:Hc;
          [now left |].
        right. exists object, rest. repeat split; auto. lia. }
      split.
      { destruct objects as [| object rest]; [lia |].
        destruct (Database.contains _fields bucket object); [lia |].
        rewrite length_app. simpl. lia. }
      repeat split.
      intros other Hne. now apply cache_get_set_other.
    + exists bucket. simpl.
      split; [reflexivity |]. split; [exact Hb |].
      split; [now left |]. split; [lia |]. repeat split.
Qed.

Lemma add_to_cache_effect_witness :
  assoc_get Class.eqb
    (Database.cache
       (snd (Database.add_to_cache User_fields (db_with_bucket 1) User
               [user 1 "a"; user 2 "b"])))
    User
  = Some [user 1 "a"]
  /\ exists text,
      Database.add_to_cache User_fields
        {| Database.models := []; Database.connection := None;
           Database.cache := [(User, [])];
           Database.cache_config :=
             {| Database.on := true; Database.limit := None |} |}
        User [user 1 "a"]
      = (Raise (TypeError text),
         {| Database.models := []; Database.connection := None;
            Database.cache := [(User, [])];
            Database.cache_config :=
              {| Database.on := true; Database.limit := None |} |}).
Proof.
  split.
  - destruct (add_to_cache_effect User_fields (db_with_bucket 1) User
                                  [user 1 "a"; user 2 "b"])
      as (_ & _ & H).
    destruct (H [] 1%Z eq_refl eq_refl)
      as (bucket' & _ & Hget & _).
    rewrite Hget. f_equal.
    simpl in Hget. now injection Hget as <-.
  - destruct (add_to_cache_effect User_fields
                {| Database.models := []; Database.connection := None;
                   Database.cache := [(User, [])];
                   Database.cache_config :=
                     {| Database.on := true; Database.limit := None |} |}
                User [user 1 "a"])
      as (_ & H & _).
    apply (H []); reflexivity.
Defined.

(** X21. Admitting the same objects a second time changes nothing: the
    object admitted by the first call is found in the bucket by the
    second. *)
Theorem add_to_cache_twice
        (_fields : Dict.t Field.t) (self : Database.t) (model : Class.t)
        (objects bucket : list Model.t) (limit : Z) :
  assoc_get Class.eqb (Database.cache self) model = Some bucket ->
  Database.limit (Database.cache_config self) = Some limit ->
  let once := snd (Database.add_to_cache _fields self model objects) in
  Database.add_to_cache _fields once model objects = (Ok tt, once).
Proof.
  intros Hb Hl once.
  assert (Hone :
            once
            = if (limit - Z.of_nat (length bucket) >? 0)%Z
              then Database.set_bucket self model
                     (Database.append_new _fields (firstn 1 objects) bucket)
              else self).
  { subst once. unfold Database.add_to_cache. rewrite Hb, Hl.
    destruct (limit - Z.of_nat (length bucket) >? 0)%Z;
      cbv beta zeta iota; [rewrite slice_to_bool |]; reflexivity. }
  rewrite Hone. clear Hone once.
  destruct (limit - Z.of_nat (length bucket) >? 0)%Z eqn:E.
  - set (b1 := Database.append_new _fields (firstn 1 objects) bucket).
    assert (Hfix : Database.append_new _fields (firstn 1 objects) b1 = b1).
    { subst b1. rewrite !append_new_first.
      destruct objects as [| object rest]; [reflexivity |].
      destruct (Database.contains _fields bucket object) eqn:Hc.
      - now rewrite Hc.
      - now rewrite contains_last. }
    assert (Hb1 : assoc_get Class.eqb
                    (Database.cache (Database.set_bucket self model b1))
                    model = Some b1)
      by (simpl; apply cache_get_set_same).
    unfold Database.add_to_cache. rewrite Hb1. simpl Database.limit.
    rewrite Hl.
    destruct (limit - Z.of_nat (length b1) >? 0)%Z;
      cbv beta zeta iota; [| reflexivity].
    rewrite slice_to_bool, Hfix.
    now rewrite (set_bucket_same _ _ Hb1).
  - unfold Database.add_to_cache. rewrite Hb, Hl, E. reflexivity.
Qed.

Lemma add_to_cache_twice_witness :
  let once :=
    snd (Database.add_to_cache User_fields (db_with_bucket 2) User
           [user 1 "a"; user 2 "b"]) in
  Database.add_to_cache User_fields once User [user 1 "a"; user 2 "b"]
  = (Ok tt, once).
Proof.
  apply (@add_to_cache_twice User_fields (db_with_bucket 2) User
           [user 1 "a"; user 2 "b"] [] 2%Z); reflexivity.
Defined.

(** ** field.py: the Field constructor *)

Lemma python_type_from_spec (datatypes : list Datatype) (s : string) :
  match python_type_from datatypes s with
  | Ok ty => exists d, In d datatypes /\ python d = ty /\ In s (sql d)
  | Raise e =>
      e = Exception_ ("received invalid SQL type " ++ s)
      /\ forall d, In d datatypes -> ~ In s (sql d)
  end.
Proof.
  induction datatypes as [| d rest IH]; simpl.
  - split; [reflexivity | tauto].
  - destruct (str_in s (sql d)) eqn:E.
    + exists d. repeat split; auto.
      unfold str_in in E. apply existsb_exists in E.
      destruct E as (x & Hx & E). apply String.eqb_eq in E. now subst x.
    + destruct (python_type_from rest s) as [ty | e].
      * destruct IH as (d' & Hd' & Hp & Hs). exists d'. auto.
      * destruct IH as (-> & Hnone). split; [reflexivity |].
        intros d' [<- | Hd'] Hin; [| now apply (Hnone d')].
        assert (str_in s (sql d) = true); [| congruence].
        unfold str_in. apply existsb_exists. exists s.
        split; [exact Hin | apply String.eqb_refl].
Qed.

(** X6. A Field that [Field.__init__] returns keeps the name and the
    default it was given, and its two types are a pair of the table: its
    value type is registered and its storage name maps to it.  Built from
    a type, it gets the type's canonical name; built from a storage name,
    it keeps that name, an alias included.  The constructor raises exactly
    when the type, or the name, is not in the table. *)
Theorem Field_init_consistent
        (name : string) (field_type : FieldType) (default : Value) :
  match Field.__init__ name field_type default with
  | Ok f =>
      Field.name f = name
      /\ Field.default f = default
      /\ python_type (Field.sql_type f) = Ok (Field.type f)
      /\ In (Field.type f) (map python DATATYPES)
      /\ Field.to_sql f = name ++ " " ++ Field.sql_type f
      /\ match field_type with
         | OfType ty =>
             Field.type f = ty /\ sql_type ty = Ok (Field.sql_type f)
         | OfStr s => Field.sql_type f = s
         end
  | Raise e =>
      match field_type with
      | OfType ty =>
          e = Exception_ ("received invalid type " ++ PyType.__name__ ty)
          /\ ~ In ty (map python DATATYPES)
      | OfStr s =>
          e = Exception_ ("received invalid SQL type " ++ s)
          /\ forall d, In d DATATYPES -> ~ In s (sql d)
      end
  end.
Proof.
  destruct field_type as [ty | s]; simpl.
  - destruct ty; simpl; repeat split; auto;
      try (intros H; simpl in H; intuition discriminate).
  - unfold python_type.
    pose proof (python_type_from_spec DATATYPES s) as H.
    destruct (python_type_from DATATYPES s) as [ty | e] eqn:E; simpl.
    + destruct H as (d & Hd & Hp & Hs). subst ty.
      split; [reflexivity |]. split; [reflexivity |].
      split; [exact E |].
      split; [change (In (python d) (map python DATATYPES));
              now apply in_map |].
      split; reflexivity.
    + exact H.
Qed.

(** ** model.py: what a class statement writes *)

Lemma mem_In (x : string) (l : list string) : mem x l = true <-> In x l.
Proof.
  unfold mem. rewrite existsb_exists. split.
  - intros (y & Hy & E). apply String.eqb_eq in E. now subst y.
  - intros H. exists x. split; [exact H | apply String.eqb_refl].
Qed.

Lemma Dict_keys_set_order {V} (d : Dict.t V) (k : string) (v : V) :
  Dict.keys (Dict.set d k v)
  = if mem k (Dict.keys d) then Dict.keys d
    else (Dict.keys d ++ [k])%list.
Proof.
  unfold Dict.keys, Dict.set, mem.
  induction d as [| [k' v'] d IH]; simpl; [reflexivity |].
  rewrite (String.eqb_sym k k').
  destruct (String.eqb k' k) eqn:E; simpl.
  - apply String.eqb_eq in E. now subst k'.
  - rewrite IH. now destruct (existsb (String.eqb k) (map fst d)).
Qed.

Lemma init_fields_keys (cls : Class.t)
      (annotations : list (string * FieldType))
      (_fields _fields' : Dict.t Field.t) :
  NoDup (map fst annotations) ->
  Model.init_fields cls annotations _fields = (Ok tt, _fields') ->
  Dict.keys _fields'
  = (Dict.keys _fields
     ++ filter (fun n => negb (mem n (Dict.keys _fields)))
               (map fst annotations))%list.
Proof.
  revert _fields.
  induction annotations as [| [name type] rest IH]; intros _fields Hnd Hrun;
    simpl in *.
  - injection Hrun as <-. now rewrite app_nil_r.
  - inversion Hnd as [| ? ? Hnotin Hnd']; subst.
    assert (Hstep : forall field,
               Model.init_fields cls rest (Dict.set _fields name field)
               = (Ok tt, _fields') ->
               Dict.keys _fields'
               = (Dict.keys _fields
                  ++ (if negb (mem name (Dict.keys _fields))
                      then name :: filter
                                     (fun n => negb (mem n (Dict.keys _fields)))
                                     (map fst rest)
                      else filter
                             (fun n => negb (mem n (Dict.keys _fields)))
                             (map fst rest)))%list).
    { intros field Hrun'. rewrite (IH _ Hnd' Hrun').
      rewrite Dict_keys_set_order.
      assert (Hfilter :
                forall ks,
                  (forall n, In n (map fst rest) ->
                             mem n ks = mem n (Dict.keys _fields)) ->
                  filter (fun n => negb (mem n ks)) (map fst rest)
                  = filter (fun n => negb (mem n (Dict.keys _fields)))
                           (map fst rest)).
      { intros ks Hks. apply filter_ext_in. intros n Hn.
        now rewrite (Hks n Hn). }
      destruct (mem name (Dict.keys _fields)) eqn:Hm; simpl.
      - reflexivity.
      - rewrite <- app_assoc. simpl. f_equal. f_equal.
        apply Hfilter. intros n Hn. unfold mem.
        rewrite existsb_app. simpl.
        destruct (String.eqb n name) eqn:E.
        + apply String.eqb_eq in E. subst n. contradiction.
        + now rewrite orb_false_r. }
    destruct (Class.getattr cls name VNone);
      try (destruct (Field.__init__ name type _);
           [eauto | discriminate]).
    eauto.
Qed.

(** X5. When a class statement succeeds, the keys of the shared mapping
    are the keys it had, in their order, followed by the annotated names
    that were not keys yet, in the order of the annotations.  For the
    first class declared, they are the class's annotated names in
    declaration order. *)
Theorem __init_subclass___keys_order
        (cls : Class.t) (_fields _fields' : Dict.t Field.t) :
  NoDup (map fst (Class.__annotations__ cls)) ->
  Model.__init_subclass__ cls _fields = (Ok tt, _fields') ->
  Dict.keys (Model._fields_of _fields' cls)
  = (Dict.keys _fields
     ++ filter (fun n => negb (mem n (Dict.keys _fields)))
               (map fst (Class.__annotations__ cls)))%list
  /\ (_fields = [] ->
      Dict.keys (Model._fields_of _fields' cls)
      = map fst (Class.__annotations__ cls)).
Proof.
  intros Hnd Hrun. unfold Model.__init_subclass__ in Hrun.
  pose proof (init_fields_keys _ _ _ Hnd Hrun) as H.
  split; [exact H |].
  intros ->. unfold Model._fields_of. rewrite H. simpl.
  clear. induction (map fst (Class.__annotations__ cls)) as [| n l IH];
    simpl; [reflexivity | now rewrite IH].
Qed.

Lemma __init_subclass___keys_order_witness :
  Dict.keys (Model._fields_of (snd (Model.__init_subclass__ Post User_fields))
                              Post)
  = ["id"; "name"; "title"].
Proof.
  destruct (@__init_subclass___keys_order
              Post User_fields (snd (Model.__init_subclass__ Post User_fields)))
    as (H & _).
  - simpl. repeat constructor. simpl. tauto.
  - reflexivity.
  - exact H.
Defined.

Lemma init_fields_cons (cls : Class.t) (name : string) (type : FieldType)
      (rest : list (string * FieldType)) (_fields : Dict.t Field.t) :
  Model.init_fields cls ((name, type) :: rest) _fields
  = match field_of cls name type with
    | Ok field => Model.init_fields cls rest (Dict.set _fields name field)
    | Raise e => (Raise e, _fields)
    end.
Proof.
  unfold field_of. simpl.
  now destruct (Class.getattr cls name VNone).
Qed.

Lemma init_fields_writes (cls : Class.t)
      (annotations : list (string * FieldType))
      (_fields _fields' : Dict.t Field.t) :
  NoDup (map fst annotations) ->
  Model.init_fields cls annotations _fields = (Ok tt, _fields') ->
  (forall name type,
      In (name, type) annotations ->
      exists field,
        field_of cls name type = Ok field
        /\ Dict.get _fields' name = Some field)
  /\ (forall k, ~ In k (map fst annotations) ->
                Dict.get _fields' k = Dict.get _fields k).
Proof.
  revert _fields.
  induction annotations as [| [name type] rest IH]; intros _fields Hnd Hrun.
  - simpl in *. injection Hrun as <-. split; [contradiction | reflexivity].
  - rewrite init_fields_cons in Hrun. simpl in Hnd |- *.
    inversion Hnd as [| ? ? Hnotin Hnd']; subst.
    destruct (field_of cls name type) as [field | e] eqn:Hf;
      [| discriminate].
    destruct (IH _ Hnd' Hrun) as (Hin & Hout).
    split.
    + intros n ty [[= <- <-] | Hn].
      * exists field. split; [exact Hf |].
        rewrite (Hout name Hnotin). apply Dict_get_set_same.
      * now apply Hin.
    + intros k Hk. rewrite Hout by tauto.
      apply Dict_get_set_other. tauto.
Qed.

(** X7. When a class statement succeeds, the shared mapping holds, under
    each annotated name, the Field of this class (the Field object
    assigned in the class body, else the one built from the annotation
    and the class attribute), whatever an earlier class had stored under
    that name; every other entry is as it was. *)
Theorem __init_subclass___last_class_wins
        (cls : Class.t) (_fields _fields' : Dict.t Field.t) :
  NoDup (map fst (Class.__annotations__ cls)) ->
  Model.__init_subclass__ cls _fields = (Ok tt, _fields') ->
  (forall name type,
      In (name, type) (Class.__annotations__ cls) ->
      exists field,
        field_of cls name type = Ok field
        /\ Dict.get (Model._fields_of _fields' cls) name = Some field)
  /\ (forall k, ~ In k (map fst (Class.__annotations__ cls)) ->
                Dict.get _fields' k = Dict.get _fields k).
Proof. intros Hnd Hrun. exact (init_fields_writes _ _ _ Hnd Hrun). Qed.

Lemma __init_subclass___last_class_wins_witness :
  Dict.get (Model._fields_of (snd (Model.__init_subclass__ Note User_fields))
                             Note) "id"
  = Some (mkField "id" PyType.Tstr "TEXT" VNone)
  /\ Dict.get (snd (Model.__init_subclass__ Note User_fields)) "name"
     = Dict.get User_fields "name".
Proof.
  destruct (@__init_subclass___last_class_wins
              Note User_fields (snd (Model.__init_subclass__ Note User_fields)))
    as (Hin & Hout).
  - simpl. repeat constructor. simpl. tauto.
  - reflexivity.
  - split.
    + destruct (Hin "id" (OfType PyType.Tstr)) as (field & Hf & Hget).
      * simpl. tauto.
      * rewrite Hget. f_equal. simpl in Hf. now injection Hf as <-.
    + apply Hout. simpl. intuition discriminate.
Defined.

(** ** model.py: assignment and what is read back *)

Lemma set_values_Ok (_fields : Dict.t Field.t)
      (new_values : list (string * Value)) (self self' : Model.t) :
  Model.set_values _fields new_values self = (Ok tt, self') ->
  self' = store_all new_values self
  /\ Forall (accepted _fields) new_values.
Proof.
  revert self.
  induction new_values as [| [name value] rest IH]; intros self Hrun;
    simpl in *.
  - injection Hrun as <-. split; [reflexivity | constructor].
  - unfold Model._fields_of in Hrun.
    destruct (Dict.get _fields name) as [field |] eqn:Hget;
      [| discriminate].
    destruct (isinstance value (Field.type field)) eqn:Hinst;
      [| discriminate].
    destruct (IH _ Hrun) as (-> & Hall).
    split; [reflexivity |].
    constructor; [exists field; auto | exact Hall].
Qed.

(** X8. When [set_values] raises at a keyword, the keywords before it
    are already assigned and stay assigned: the instance is left half
    updated, every other attribute as it was.  The constructor, given the
    same keywords, raises the same exception. *)
Theorem set_values_raises_half_way
        (_fields : Dict.t Field.t) (self : Model.t)
        (before after : list (string * Value))
        (name : string) (value : Value) :
  Forall (accepted _fields) before ->
  NoDup (map fst before) ->
  (Dict.get _fields name = None
   \/ exists field,
      Dict.get _fields name = Some field
      /\ isinstance value (Field.type field) = false) ->
  let new_values := (before ++ (name, value) :: after)%list in
  exists e self',
    Model.set_values _fields new_values self = (Raise e, self')
    /\ Model.__init__ _fields (Model.cls self) new_values = Raise e
    /\ Model.cls self' = Model.cls self
    /\ (forall k v, In (k, v) before ->
                    Dict.get (Model.attrs self') k = Some v)
    /\ (forall k, ~ In k (map fst before) ->
                  Dict.get (Model.attrs self') k
                  = Dict.get (Model.attrs self) k).
Proof.
  intros Hbefore Hnd Hrefused new_values. subst new_values.
  assert (Hrun : forall s,
             exists e,
               Model.set_values _fields (before ++ (name, value) :: after) s
               = (Raise e, store_all before s)).
  { intros s. rewrite set_values_first_refused by exact Hbefore.
    destruct Hrefused as [-> | (field & -> & ->)]; eauto. }
  destruct (Hrun self) as (e & He).
  exists e, (store_all before self).
  split; [exact He |].
  split.
  { unfold Model.__init__.
    destruct (Hrun {| Model.cls := Model.cls self; Model.attrs := [] |})
      as (e' & He').
    rewrite He'. f_equal.
    rewrite set_values_first_refused in He, He' by exact Hbefore.
    destruct Hrefused as [Hn | (field & Hn & Hi)];
      rewrite Hn in He, He'; try rewrite Hi in He, He'; congruence. }
  split; [apply store_all_cls |].
  split.
  - intros k v Hin. now apply store_all_get.
  - intros k Hk. now apply store_all_get_other.
Qed.

Lemma set_values_raises_half_way_witness :
  exists e self',
    Model.set_values User_fields [("id", VInt 9); ("name", VInt 7)]
                     (user 1 "a")
    = (Raise e, self')
    /\ Dict.get (Model.attrs self') "id" = Some (VInt 9).
Proof.
  destruct (@set_values_raises_half_way
              User_fields (user 1 "a") [("id", VInt 9)] []
              "name" (VInt 7))
    as (e & self' & Hrun & _ & _ & Hset & _).
  - constructor; [| constructor].
    exists (mkField "id" PyType.Tint "INTEGER" VNone). split; reflexivity.
  - simpl. repeat constructor. simpl. tauto.
  - right. exists (mkField "name" PyType.Tstr "TEXT" VNone).
    split; reflexivity.
  - exists e, self'. split; [exact Hrun |].
    apply Hset. simpl. tauto.
Defined.

(** X9. After a [set_values] that returns, a field reads as the value of
    the keyword that bears the Field's name, and reads as before when no
    keyword bears that name; the instance's class is unchanged. *)
Theorem set_values_then_get_value
        (_fields : Dict.t Field.t) (self self' : Model.t)
        (new_values : list (string * Value)) (field : Field.t) :
  NoDup (map fst new_values) ->
  Model.set_values _fields new_values self = (Ok tt, self') ->
  (forall value,
      In (Field.name field, value) new_values ->
      Model._get_value self' field = value)
  /\ (~ In (Field.name field) (map fst new_values) ->
      Model._get_value self' field = Model._get_value self field)
  /\ Model.cls self' = Model.cls self.
Proof.
  intros Hnd Hrun. destruct (set_values_Ok _ _ _ Hrun) as (-> & _).
  unfold Model._get_value, Model.getattr.
  split; [| split].
  - intros value Hin. now rewrite (@store_all_get _ _ _ _ Hnd Hin).
  - intros Hout. rewrite (@store_all_get_other _ _ _ Hout).
    now rewrite store_all_cls.
  - apply store_all_cls.
Qed.

Lemma set_values_then_get_value_witness :
  Model._get_value
    (snd (Model.set_values User_fields [("name", VStr "b")] (user 1 "a")))
    (mkField "name" PyType.Tstr "TEXT" VNone)
  = VStr "b"
  /\ Model._get_value
       (snd (Model.set_values (snd (Model.__init_subclass__ Renamed []))
                              [("id", VInt 5)]
                              {| Model.cls := Renamed; Model.attrs := [] |}))
       ident_field
     = VInt 0.
Proof.
  split.
  - destruct (@set_values_then_get_value
                User_fields (user 1 "a")
                (snd (Model.set_values User_fields [("name", VStr "b")]
                                       (user 1 "a")))
                [("name", VStr "b")]
                (mkField "name" PyType.Tstr "TEXT" VNone))
      as (H & _).
    + simpl. repeat constructor. simpl. tauto.
    + reflexivity.
    + apply H. simpl. tauto.
  - destruct (@set_values_then_get_value
                (snd (Model.__init_subclass__ Renamed []))
                {| Model.cls := Renamed; Model.attrs := [] |}
                (snd (Model.set_values
                        (snd (Model.__init_subclass__ Renamed []))
                        [("id", VInt 5)]
                        {| Model.cls := Renamed; Model.attrs := [] |}))
                [("id", VInt 5)] ident_field)
      as (_ & H & _).
    + simpl. repeat constructor. simpl. tauto.
    + reflexivity.
    + rewrite H; [reflexivity |]. simpl. intuition discriminate.
Defined.

(** ** database.py: from a row to an instance *)

Lemma Dict_set_fresh {V} (d : Dict.t V) (k : string) (v : V) :
  ~ In k (Dict.keys d) -> Dict.set d k v = (d ++ [(k, v)])%list.
Proof.
  unfold Dict.keys, Dict.set.
  induction d as [| [k' v'] d IH]; simpl; intros H; [reflexivity |].
  destruct (String.eqb k' k) eqn:E.
  - apply String.eqb_eq in E. tauto.
  - rewrite IH by tauto. reflexivity.
Qed.

Lemma fold_set_fresh {V} (items acc : list (string * V)) :
  NoDup (map fst (acc ++ items)) ->
  fold_left (fun d kv => Dict.set d (fst kv) (snd kv)) items acc
  = (acc ++ items)%list.
Proof.
  revert acc. induction items as [| [k v] rest IH]; intros acc Hnd; simpl.
  - now rewrite app_nil_r.
  - rewrite Dict_set_fresh.
    + rewrite IH; rewrite <- app_assoc; [reflexivity | exact Hnd].
    + rewrite map_app in Hnd. simpl in Hnd.
      apply NoDup_remove_2 in Hnd. intros Hin. apply Hnd.
      apply in_or_app. now left.
Qed.

Lemma store_all_attrs (new_values : list (string * Value)) (self : Model.t) :
  Model.attrs (store_all new_values self)
  = fold_left (fun d kv => Dict.set d (fst kv) (snd kv)) new_values
              (Model.attrs self).
Proof.
  revert self. induction new_values as [| kv rest IH]; intros self; simpl;
    [reflexivity | now rewrite IH].
Qed.

Lemma NoDup_firstn {A} (n : nat) (l : list A) :
  NoDup l -> NoDup (firstn n l).
Proof.
  revert n. induction l as [| a l IH]; intros [| n] H; simpl;
    try constructor.
  - inversion H as [| ? ? Hnotin Hnd]; subst.
    intros Hin. apply Hnotin. rewrite <- (firstn_skipn n l).
    apply in_or_app. now left.
  - inversion H; subst. now apply IH.
Qed.

Lemma combine_keys {V} (d : Dict.t V) (data : Row) :
  combine (map fst d) data
  = map (fun ev => (fst (fst ev), snd ev)) (combine d data).
Proof.
  revert data. induction d as [| [k v] d IH]; intros [| x data]; simpl;
    try reflexivity.
  now rewrite IH.
Qed.

Lemma combine_keys_fst {V} (d : Dict.t V) (data : Row) :
  map fst (combine (map fst d) data) = firstn (length data) (map fst d).
Proof.
  revert data. induction d as [| [k v] d IH]; intros [| x data]; simpl;
    try reflexivity.
  now rewrite IH.
Qed.

Lemma Dict_get_In {V} (d : Dict.t V) (k : string) (v : V) :
  NoDup (Dict.keys d) -> In (k, v) d -> Dict.get d k = Some v.
Proof.
  unfold Dict.keys, Dict.get.
  induction d as [| [k' v'] d IH]; simpl; intros Hnd Hin; [contradiction |].
  inversion Hnd as [| ? ? Hnotin Hnd']; subst.
  destruct Hin as [[= -> ->] | Hin].
  - now rewrite String.eqb_refl.
  - destruct (String.eqb k' k) eqn:E.
    + apply String.eqb_eq in E. subst k'. exfalso. apply Hnotin.
      apply (in_map fst) in Hin. exact Hin.
    + now apply IH.
Qed.

(** What the fields read on an instance whose attributes agree, on the
    keys of the mapping, with the keys zipped with the row. *)
Lemma values_of_zipped (model : Class.t) (_fields : Dict.t Field.t)
      (data : Row) (attrs : Dict.t Value) :
  NoDup (Dict.keys _fields) ->
  well_named _fields ->
  (forall k, In k (Dict.keys _fields) ->
             Dict.get attrs k = Dict.get (combine (Dict.keys _fields) data) k)
  ->
  map (Model._get_value {| Model.cls := model; Model.attrs := attrs |})
      (Dict.values _fields)
  = (firstn (length _fields) data
     ++ map (Model._get_value (blank model))
            (skipn (length data) (Dict.values _fields)))%list.
Proof.
  unfold Dict.keys, Dict.values.
  revert data. induction _fields as [| [k field] d IH];
    intros data Hnd Hnamed Hagree; [now destruct data |].
  inversion Hnd as [| ? ? Hnotin Hnd']; subst.
  assert (Hname : Field.name field = k)
    by (apply (Hnamed (k, field)); now left).
  assert (Hnamed' : well_named d)
    by (intros entry Hin; apply Hnamed; now right).
  destruct data as [| v data].
  - simpl. f_equal.
    + unfold Model._get_value, Model.getattr. simpl.
      rewrite Hname, (Hagree k) by (now left). reflexivity.
    + rewrite (IH [] Hnd' Hnamed').
      * now destruct d.
      * intros k' Hk'. rewrite (Hagree k') by (now right).
        simpl. now destruct (map fst d).
  - simpl. f_equal.
    + unfold Model._get_value, Model.getattr. simpl.
      rewrite Hname, (Hagree k) by (now left).
      unfold Dict.get. simpl. now rewrite String.eqb_refl.
    + apply (IH data Hnd' Hnamed').
      intros k' Hk'. rewrite (Hagree k') by (now right).
      unfold Dict.get. simpl.
      destruct (String.eqb k k') eqn:E; [| reflexivity].
      apply String.eqb_eq in E. subst k'. contradiction.
Qed.

(** The instance built from a row is the blank instance after the keys
    zipped with the columns were assigned, and this is what it reads
    back. *)
Lemma row_object (_fields : Dict.t Field.t) (model : Class.t) (data : Row) :
  NoDup (Dict.keys _fields) ->
  well_named _fields ->
  well_typed _fields data ->
  let object := store_all (combine (Dict.keys _fields) data) (blank model) in
  Model.__init__ _fields model (Database.row_kwargs _fields model data)
  = Ok object
  /\ Model.attrs object = combine (Dict.keys _fields) data
  /\ Model.values _fields object
     = (firstn (length _fields) data
        ++ map (Model._get_value (blank model))
               (skipn (length data) (Dict.values _fields)))%list.
Proof.
  intros Hnd Hnamed Htyped.
  set (kw := combine (Dict.keys _fields) data).
  assert (Hkw_nd : NoDup (map fst kw)).
  { subst kw. unfold Dict.keys. rewrite combine_keys_fst.
    now apply NoDup_firstn. }
  assert (Hrow : Database.row_kwargs _fields model data = kw).
  { unfold Database.row_kwargs, Dict.items, dict_of_items, Model._fields_of.
    now rewrite fold_set_fresh. }
  assert (Hacc : Forall (accepted _fields) kw).
  { subst kw. unfold Dict.keys. rewrite combine_keys.
    apply Forall_map. unfold well_typed in Htyped.
    rewrite Forall_forall in Htyped |- *.
    intros [[k field] v] Hin. exists field. simpl. split.
    - apply Dict_get_In; [exact Hnd |]. now apply in_combine_l in Hin.
    - exact (Htyped _ Hin). }
  assert (Hattrs : Model.attrs (store_all kw (blank model)) = kw).
  { rewrite store_all_attrs. simpl. now rewrite fold_set_fresh. }
  intros object. subst object.
  split; [| split; [exact Hattrs |]].
  - rewrite Hrow. unfold Model.__init__.
    now rewrite (set_values_all_accepted _ Hacc).
  - unfold Model.values, Model.fields, Model._fields_of.
    rewrite <- (@values_of_zipped model _fields data kw Hnd Hnamed)
      by reflexivity.
    f_equal. rewrite <- Hattrs at 2.
    generalize (store_all_cls kw (blank model)). simpl.
    now destruct (store_all kw (blank model)) as [c a]; simpl; intros ->.
Qed.

(** X10. The instance that [fetch] and [fetch_all] build from a row
    reads back as the row: when the keys of the mapping are distinct,
    every Field carries the name of its key and the columns are instances
    of the fields' types, the class call succeeds, the attributes are the
    keys zipped with the columns, and [values] is the row cut to the
    number of fields, followed, for a row that is too short, by what the
    remaining fields read on an instance with no attribute. *)
Theorem row_round_trip
        (_fields : Dict.t Field.t) (model : Class.t) (data : Row) :
  NoDup (Dict.keys _fields) ->
  well_named _fields ->
  well_typed _fields data ->
  exists object,
    Model.__init__ _fields model (Database.row_kwargs _fields model data)
    = Ok object
    /\ Model.cls object = model
    /\ Model.attrs object = combine (Dict.keys _fields) data
    /\ Model.values _fields object
       = (firstn (length _fields) data
          ++ map (Model._get_value (blank model))
                 (skipn (length data) (Dict.values _fields)))%list
    /\ (length data = length _fields ->
        Model.values _fields object = data).
Proof.
  intros Hnd Hnamed Htyped.
  destruct (row_object model Hnd Hnamed Htyped) as (Hobj & Hattrs & Hvalues).
  eexists. split; [exact Hobj |].
  split; [apply store_all_cls |].
  split; [exact Hattrs |].
  split; [exact Hvalues |].
  intros Hlen. rewrite Hvalues.
  rewrite <- Hlen, firstn_all.
  unfold Dict.values. rewrite skipn_all2 by (rewrite length_map; lia).
  apply app_nil_r.
Qed.

Lemma row_round_trip_witness :
  exists object,
    Model.__init__ User_fields User
      (Database.row_kwargs User_fields User [VInt 1; VStr "a"])
    = Ok object
    /\ Model.values User_fields object = [VInt 1; VStr "a"].
Proof.
  destruct (@row_round_trip User_fields User [VInt 1; VStr "a"])
    as (object & Hobj & _ & _ & _ & Hvalues).
  - simpl. repeat constructor; simpl; intuition discriminate.
  - intros entry Hin. simpl in Hin.
    destruct Hin as [<- | [<- | []]]; reflexivity.
  - repeat constructor.
  - exists object. split; [exact Hobj |]. now apply Hvalues.
Defined.

(** ** database.py: statements on a connected handler *)

Lemma execute_connected (self : Database.t) (conn : Connection.t)
      (query : string) (commit fetch fetch_one : bool) :
  Database.connection self = Some conn ->
  Database.execute self query commit fetch fetch_one
  = match next_rows conn with
    | Raise e => (Raise e, Database.set_connection self (Some (sent conn query)))
    | Ok rows =>
        (Ok (if fetch then AllRows rows
             else if fetch_one then OneRow (hd_error rows)
                  else NoFetch),
         Database.set_connection self
           (Some (if commit then Connection.commit (sent conn query)
                  else sent conn query)))
    end.
Proof.
  intros H. unfold Database.execute, Connection.execute, next_rows.
  rewrite H. fold (sent conn query).
  destruct (Connection.replies conn) as [| [rows | text] rest];
    try reflexivity;
    destruct fetch, fetch_one; reflexivity.
Qed.

(** X12. On a connected handler [execute] sends the statement to the
    connection whatever the answer is.  When the client raises, its
    exception is passed on and nothing is committed, [commit] set or not.
    Otherwise the statement is committed exactly when [commit] is set,
    and the result is every row when [fetch] is set (also when
    [fetch_one] is set too), else the first row or [None] when
    [fetch_one] is set, else nothing.  The models, the cache and the
    cache configuration are never changed. *)
Theorem execute_effect
        (self : Database.t) (conn : Connection.t) (query : string)
        (commit fetch fetch_one : bool) :
  Database.connection self = Some conn ->
  let r := Database.execute self query commit fetch fetch_one in
  (exists conn',
      snd r = Database.set_connection self (Some conn')
      /\ Connection.executed conn'
         = (Connection.executed conn ++ [query])%list
      /\ Connection.replies conn' = tl (Connection.replies conn))
  /\ match next_rows conn with
     | Raise e =>
         r = (Raise e, Database.set_connection self (Some (sent conn query)))
         /\ Connection.commits (sent conn query) = Connection.commits conn
     | Ok rows =>
         fst r = Ok (if fetch then AllRows rows
                     else if fetch_one then OneRow (hd_error rows)
                          else NoFetch)
         /\ exists conn',
             Database.connection (snd r) = Some conn'
             /\ Connection.commits conn'
                = if commit then S (Connection.commits conn)
                  else Connection.commits conn
     end.
Proof.
  intros H r. subst r. rewrite (execute_connected _ _ _ _ _ H).
  destruct (next_rows conn) as [rows | e]; simpl.
  - split.
    + eexists. split; [reflexivity |]. now destruct commit.
    + split; [reflexivity |]. eexists. split; [reflexivity |].
      now destruct commit.
  - split; [| split; reflexivity].
    eexists. split; [reflexivity |]. split; reflexivity.
Qed.

Lemma execute_effect_witness :
  fst (Database.execute (connected [Rows [[VInt 1; VStr "a"]]])
                        "SELECT * FROM User" false true true)
  = Ok (AllRows [[VInt 1; VStr "a"]]).
Proof.
  destruct (@execute_effect (connected [Rows [[VInt 1; VStr "a"]]])
                            (new_connection [Rows [[VInt 1; VStr "a"]]])
                            "SELECT * FROM User" false true true eq_refl)
    as (_ & H).
  simpl in H. exact (proj1 H).
Defined.

Lemma set_connection_twice (self : Database.t)
      (c1 c2 : option Connection.t) :
  Database.set_connection (Database.set_connection self c1) c2
  = Database.set_connection self c2.
Proof. reflexivity. Qed.

Lemma create_tables_from_cons (_fields : Dict.t Field.t) (model : Class.t)
      (rest : list Class.t) (self : Database.t) :
  Database.create_tables_from _fields (model :: rest) self
  = match Database.execute self (create_statement _fields model)
                           true false false with
    | (Ok _, self') => Database.create_tables_from _fields rest self'
    | (Raise e, self') => (Raise e, self')
    end.
Proof. reflexivity. Qed.

Lemma tables_created_cons (_fields : Dict.t Field.t) (model : Class.t)
      (rest : list Class.t) (conn : Connection.t) :
  tables_created _fields rest
    (Connection.commit (sent conn (create_statement _fields model)))
  = tables_created _fields (model :: rest) conn.
Proof.
  unfold tables_created, sent, Connection.commit.
  cbn [Connection.executed Connection.commits Connection.replies
       length map].
  f_equal.
  - now rewrite <- app_assoc.
  - lia.
  - destruct (Connection.replies conn); [now rewrite skipn_nil |].
    reflexivity.
Qed.

Lemma create_tables_from_all (_fields : Dict.t Field.t)
      (models : list Class.t) (self : Database.t) (conn : Connection.t) :
  Database.connection self = Some conn ->
  Forall is_rows (firstn (length models) (Connection.replies conn)) ->
  Database.create_tables_from _fields models self
  = (Ok tt,
     Database.set_connection self
       (Some (tables_created _fields models conn))).
Proof.
  revert self conn.
  induction models as [| model rest IH]; intros self conn Hc Hrows.
  - simpl. f_equal. unfold tables_created. simpl.
    rewrite app_nil_r, Nat.add_0_r.
    destruct self as [ms c ca cfg]; simpl in *. subst c.
    now destruct conn.
  - rewrite create_tables_from_cons, (execute_connected _ _ _ _ _ Hc).
    assert (Hnext : exists rows, next_rows conn = Ok rows
                                 /\ Forall is_rows
                                      (firstn (length rest)
                                         (tl (Connection.replies conn)))).
    { unfold next_rows. simpl in Hrows.
      destruct (Connection.replies conn) as [| [rows | text] tail];
        simpl in *.
      - exists []. split; [reflexivity |]. now destruct (length rest).
      - exists rows. split; [reflexivity |]. now inversion Hrows.
      - inversion Hrows as [| ? ? Hbad]; subst. contradiction. }
    destruct Hnext as (rows & Hn & Hrest). rewrite Hn. cbv beta iota.
    rewrite (IH (Database.set_connection
                   self
                   (Some (Connection.commit
                            (sent conn (create_statement _fields model)))))
                (Connection.commit
                   (sent conn (create_statement _fields model)))
                eq_refl Hrest).
    now rewrite set_connection_twice, tables_created_cons.
Qed.

(** X13. On a connected handler whose client does not fail on them,
    [create_tables] sends one [CREATE TABLE IF NOT EXISTS] statement per
    registered model, in registration order (a model registered twice
    gets two), commits after each one, and changes nothing else. *)
Theorem create_tables_effect
        (_fields : Dict.t Field.t) (self : Database.t)
        (conn : Connection.t) :
  Database.connection self = Some conn ->
  Forall is_rows
         (firstn (length (Database.models self)) (Connection.replies conn)) ->
  Database.create_tables _fields self
  = (Ok tt,
     Database.set_connection self
       (Some (tables_created _fields (Database.models self) conn))).
Proof. apply create_tables_from_all. Qed.

Lemma create_tables_effect_witness :
  Database.create_tables User_fields
    (Database.__init__ [User; User] (Some (new_connection [])))
  = (Ok tt,
     Database.__init__ [User; User]
       (Some {| Connection.executed :=
                  ["CREATE TABLE IF NOT EXISTS User (id INTEGER, name TEXT)";
                   "CREATE TABLE IF NOT EXISTS User (id INTEGER, name TEXT)"];
                Connection.commits := 2;
                Connection.replies := [] |})).
Proof.
  apply (@create_tables_effect User_fields
           (Database.__init__ [User; User] (Some (new_connection [])))
           (new_connection [])).
  - reflexivity.
  - constructor.
Defined.

(** ** database.py: handlers without a connection *)

(** X14. On a handler without a connection every operation that has a
    statement to send raises [NotConnected] and leaves the handler as it
    was: [save], [delete], [update], [fetch], [fetch_all], [get_or_fetch]
    when the cache has no match, and [create_tables] when a model is
    registered.  With no model registered, [create_tables] returns
    normally: it has nothing to send. *)
Theorem not_connected_everywhere
        (_fields : Dict.t Field.t) (self : Database.t) :
  Database.connection self = None ->
  (forall object,
      Database.save _fields self object = (Raise NotConnected, self))
  /\ (forall object limit,
         Database.delete _fields self object limit
         = (Raise NotConnected, self))
  /\ (forall object,
         Database.update _fields self object = (Raise NotConnected, self))
  /\ (forall model values,
         Database.fetch _fields self model values
         = (Raise NotConnected, self))
  /\ (forall model values,
         Database.fetch_all _fields self model values
         = (Raise NotConnected, self))
  /\ (forall model values,
         Database.get self model values = None ->
         Database.get_or_fetch _fields self model values
         = (Raise NotConnected, self))
  /\ (Database.models self <> [] ->
      Database.create_tables _fields self = (Raise NotConnected, self))
  /\ (Database.models self = [] ->
      Database.create_tables _fields self = (Ok tt, self)).
Proof.
  intros H.
  assert (He : forall query commit fetch fetch_one,
             Database.execute self query commit fetch fetch_one
             = (Raise NotConnected, self)).
  { intros. unfold Database.execute. now rewrite H. }
  assert (Hfetch : forall model values,
             Database.fetch _fields self model values
             = (Raise NotConnected, self)).
  { intros. unfold Database.fetch. now rewrite He. }
  repeat split.
  - intros. unfold Database.save. now rewrite He.
  - intros. unfold Database.delete. now rewrite He.
  - intros. unfold Database.update. now rewrite He.
  - exact Hfetch.
  - intros. unfold Database.fetch_all. now rewrite He.
  - intros model values Hget. unfold Database.get_or_fetch.
    rewrite Hget. apply Hfetch.
  - intros Hm. unfold Database.create_tables.
    destruct (Database.models self) as [| model rest]; [congruence |].
    rewrite create_tables_from_cons. now rewrite He.
  - intros Hm. unfold Database.create_tables. now rewrite Hm.
Qed.

Lemma not_connected_everywhere_witness :
  Database.save User_fields (Database.__init__ [User] None) (user 1 "a")
  = (Raise NotConnected, Database.__init__ [User] None)
  /\ Database.create_tables User_fields (Database.__init__ [] None)
     = (Ok tt, Database.__init__ [] None).
Proof.
  destruct (@not_connected_everywhere
              User_fields (Database.__init__ [User] None) eq_refl)
    as (Hsave & _).
  destruct (@not_connected_everywhere
              User_fields (Database.__init__ [] None) eq_refl)
    as (_ & _ & _ & _ & _ & _ & _ & Hnone).
  split; [apply Hsave | now apply Hnone].
Defined.

(** ** database.py: registration *)

Lemma fold_add_model (models : list Class.t) (self : Database.t) :
  fold_left Database.add_model models self
  = {| Database.models := (Database.models self ++ models)%list;
       Database.connection := Database.connection self;
       Database.cache := Database.cache self;
       Database.cache_config := Database.cache_config self |}.
Proof.
  revert self. induction models as [| model rest IH]; intros self; simpl.
  - rewrite app_nil_r. now destruct self.
  - rewrite IH. simpl. now rewrite <- app_assoc.
Qed.

(** X16. A new handler lists the models it was given, in the order
    given and with repetitions kept; it holds the connection it was given,
    an empty cache, and a configuration with caching off and no limit.
    [add_model] appends to the list, also a model that is listed
    already. *)
Theorem Database_init_registers_in_order
        (models : list Class.t) (connection : option Connection.t)
        (model : Class.t) :
  Database.__init__ models connection
  = {| Database.models := models;
       Database.connection := connection;
       Database.cache := [];
       Database.cache_config :=
         {| Database.on := false; Database.limit := None |} |}
  /\ Database.models
       (Database.add_model (Database.__init__ models connection) model)
     = (models ++ [model])%list
  /\ Database.__init__ (models ++ [model]) connection
     = Database.add_model (Database.__init__ models connection) model.
Proof.
  unfold Database.__init__. rewrite !fold_add_model. simpl.
  repeat split.
Qed.

(** X17. The [model] decorator registers the class it returns as the
    last model and touches neither the connection nor the cache.  A class
    that derives from [Model] is returned as it is and the shared mapping
    is not written.  Another class is replaced by a new class of the same
    name, annotations and attributes that derives from [Model], and the
    mapping is what the class statement of that new class leaves; when
    that statement raises, the decorator raises and registers nothing. *)
Theorem model_decorator_effect
        (_fields : Dict.t Field.t) (self : Database.t) (new_id : N)
        (cls : Class.t) :
  let r := Database.model _fields self new_id cls in
  (Class.derives_Model cls = true ->
   r = (Ok cls, (_fields, Database.add_model self cls)))
  /\ (forall cls' _fields' self',
         r = (Ok cls', (_fields', self')) ->
         Database.models self' = (Database.models self ++ [cls'])%list
         /\ Database.connection self' = Database.connection self
         /\ Database.cache self' = Database.cache self
         /\ Class.derives_Model cls' = true
         /\ Class.__name__ cls' = Class.__name__ cls
         /\ Class.__annotations__ cls' = Class.__annotations__ cls
         /\ Class.__dict__ cls' = Class.__dict__ cls
         /\ (Class.derives_Model cls = false ->
             Class.id cls' = new_id
             /\ Model.__init_subclass__ cls' _fields = (Ok tt, _fields')))
  /\ (forall e _fields' self',
         r = (Raise e, (_fields', self')) ->
         self' = self
         /\ Class.derives_Model cls = false
         /\ exists cls',
             Model.__init_subclass__ cls' _fields = (Raise e, _fields')
             /\ Class.__annotations__ cls' = Class.__annotations__ cls).
Proof.
  intros r. subst r. unfold Database.model.
  destruct (Class.derives_Model cls) eqn:Hd.
  - split; [reflexivity |]. split.
    + intros cls' f' self' [= <- <- <-].
      repeat split; auto; congruence.
    + discriminate.
  - split; [discriminate |].
    match goal with
    | |- context [Model.__init_subclass__ ?c _fields] =>
        destruct (Model.__init_subclass__ c _fields) as [[[] | e] f1] eqn:Hrun
    end.
    + split; [| discriminate].
      intros cls' f' self' [= <- <- <-]. repeat split; auto.
    + split; [discriminate |].
      intros e' f' self' [= <- <- <-]. repeat split.
      eexists. split; [exact Hrun | reflexivity].
Qed.

(** [class Plain: id: int], which does not derive from [Model]. *)
Lemma model_decorator_effect_witness :
  Database.model [] (Database.__init__ [] None) 7
    {| Class.id := 8; Class.__name__ := "Plain";
       Class.derives_Model := false;
       Class.__annotations__ := [("id", OfType PyType.Tint)];
       Class.__dict__ := [] |}
  = (Ok {| Class.id := 7; Class.__name__ := "Plain";
           Class.derives_Model := true;
           Class.__annotations__ := [("id", OfType PyType.Tint)];
           Class.__dict__ := [] |},
     ([("id", mkField "id" PyType.Tint "INTEGER" VNone)],
      Database.__init__
        [{| Class.id := 7; Class.__name__ := "Plain";
            Class.derives_Model := true;
            Class.__annotations__ := [("id", OfType PyType.Tint)];
            Class.__dict__ := [] |}] None))
  /\ Database.model User_fields (Database.__init__ [] None) 7 User
     = (Ok User, (User_fields, Database.__init__ [User] None)).
Proof.
  split; [reflexivity |].
  destruct (@model_decorator_effect User_fields (Database.__init__ [] None)
                                    7%N User) as (H & _).
  now rewrite H.
Defined.

(** ** database.py: connect *)

Lemma create_tables_from_sent (_fields : Dict.t Field.t)
      (models : list Class.t) (self : Database.t) (conn : Connection.t) :
  Database.connection self = Some conn ->
  exists conn' k,
    snd (Database.create_tables_from _fields models self)
    = Database.set_connection self (Some conn')
    /\ k <= length models
    /\ Connection.executed conn'
       = (Connection.executed conn
          ++ map (create_statement _fields) (firstn k models))%list.
Proof.
  revert self conn.
  induction models as [| model rest IH]; intros self conn Hc.
  - exists conn, 0. simpl. rewrite app_nil_r. repeat split; auto.
    destruct self as [ms c ca cfg]; simpl in *. now subst c.
  - rewrite create_tables_from_cons, (execute_connected _ _ _ _ _ Hc).
    destruct (next_rows conn) as [rows | e]; cbv beta iota.
    + destruct (IH (Database.set_connection
                      self
                      (Some (Connection.commit
                               (sent conn (create_statement _fields model)))))
                   (Connection.commit
                      (sent conn (create_statement _fields model)))
                   eq_refl)
        as (conn' & k & Hs & Hk & He).
      exists conn', (S k). rewrite Hs, set_connection_twice.
      split; [reflexivity |]. split; [simpl; lia |].
      rewrite He. simpl. now rewrite <- app_assoc.
    + exists (sent conn (create_statement _fields model)), 1.
      split; [reflexivity |]. split; [simpl; lia |]. reflexivity.
Qed.

(** X15. When the client cannot open the connection, [connect] passes
    its exception on and the handler is unchanged.  When it can, the
    handler holds a connection from then on, also when [create_tables]
    raises half way: that connection is the opened one after it was sent
    the statements of the first [k] registered models.  With
    [create_tables] off nothing is sent; with it on and a client that does
    not fail, every model's statement is sent and [connect] returns. *)
Theorem connect_effect
        (aiosqlite_connect : string -> result Connection.t)
        (_fields : Dict.t Field.t) (self : Database.t) (url : string)
        (create_tables : bool) :
  let r := Database.connect aiosqlite_connect _fields self url
                            create_tables in
  (forall e, aiosqlite_connect url = Raise e -> r = (Raise e, self))
  /\ (forall conn,
         aiosqlite_connect url = Ok conn ->
         (exists conn' k,
             snd r = Database.set_connection self (Some conn')
             /\ k <= length (Database.models self)
             /\ Connection.executed conn'
                = (Connection.executed conn
                   ++ map (create_statement _fields)
                          (firstn k (Database.models self)))%list)
         /\ (create_tables = false ->
             snd r = Database.set_connection self (Some conn)
             /\ exists c, fst r = Ok c)
         /\ (create_tables = true ->
             Forall is_rows
                    (firstn (length (Database.models self))
                            (Connection.replies conn)) ->
             snd r
             = Database.set_connection self
                 (Some (tables_created _fields (Database.models self) conn))
             /\ exists c, fst r = Ok c)).
Proof.
  intros r. subst r. unfold Database.connect. split.
  - intros e He. now rewrite He.
  - intros conn Hconn. rewrite Hconn.
    split; [| split].
    + destruct create_tables.
      * unfold Database.create_tables.
        destruct (@create_tables_from_sent
                    _fields
                    (Database.models
                       (Database.set_connection self (Some conn)))
                    (Database.set_connection self (Some conn)) conn eq_refl)
          as (conn' & k & Hs & Hk & He).
        exists conn', k. split; [| split; [exact Hk | exact He]].
        rewrite set_connection_twice in Hs. rewrite <- Hs.
        now destruct (Database.create_tables_from _ _ _) as [[u | e] s].
      * exists conn, 0. simpl. rewrite app_nil_r.
        repeat split. lia.
    + intros ->. split; [reflexivity | now exists conn].
    + intros -> Hrows. unfold Database.create_tables.
      rewrite (@create_tables_from_all
                 _fields
                 (Database.models (Database.set_connection self (Some conn)))
                 (Database.set_connection self (Some conn)) conn eq_refl
                 Hrows).
      split; [reflexivity | now exists conn].
Qed.

Lemma connect_effect_witness :
  snd (Database.connect (fun _ => Ok (new_connection [Fails "disk full"]))
                        User_fields (Database.__init__ [User] None)
                        "ormic.db" true)
  = Database.__init__
      [User]
      (Some {| Connection.executed :=
                 ["CREATE TABLE IF NOT EXISTS User (id INTEGER, name TEXT)"];
               Connection.commits := 0;
               Connection.replies := [] |})
  /\ Database.connect (fun _ => Raise (StorageError "no such file"))
                      User_fields (Database.__init__ [User] None)
                      "ormic.db" true
     = (Raise (StorageError "no such file"), Database.__init__ [User] None).
Proof.
  split; [reflexivity |].
  destruct (@connect_effect (fun _ => Raise (StorageError "no such file"))
                            User_fields (Database.__init__ [User] None)
                            "ormic.db" true) as (H & _).
  now apply H.
Defined.

(** ** database.py: reading rows *)

(** A row with one column per field. *)
Lemma row_values (_fields : Dict.t Field.t) (model : Class.t) (data : Row) :
  NoDup (Dict.keys _fields) ->
  well_named _fields ->
  well_typed _fields data ->
  length data = length _fields ->
  exists object,
    Model.__init__ _fields model (Database.row_kwargs _fields model data)
    = Ok object
    /\ Model.cls object = model
    /\ Model.values _fields object = data.
Proof.
  intros Hnd Hnamed Htyped Hlen.
  destruct (row_object model Hnd Hnamed Htyped) as (Hobj & _ & Hvalues).
  eexists. split; [exact Hobj |]. split; [apply store_all_cls |].
  rewrite Hvalues, <- Hlen, firstn_all.
  unfold Dict.values. rewrite skipn_all2 by (rewrite length_map; lia).
  apply app_nil_r.
Qed.

(** The rows are as long as the mapping and their columns are instances
    of the fields' types. *)
Lemma build_objects_rows (_fields : Dict.t Field.t) (model : Class.t)
      (rows : list Row) :
  NoDup (Dict.keys _fields) ->
  well_named _fields ->
  Forall (fun data => well_typed _fields data
                      /\ length data = length _fields) rows ->
  exists objects,
    Database.build_objects _fields model rows = Ok objects
    /\ map (Model.values _fields) objects = rows
    /\ Forall (fun object => Model.cls object = model) objects.
Proof.
  intros Hnd Hnamed Hrows.
  induction Hrows as [| data rest (Htyped & Hlen) _ (objects & Hb & Hv & Hc)].
  - exists []. repeat split. constructor.
  - destruct (row_values model Hnd Hnamed Htyped Hlen)
      as (object & Hobj & Hcls & Hvalues).
    exists (object :: objects). simpl. rewrite Hobj, Hb. simpl.
    split; [reflexivity |]. split.
    + now rewrite Hvalues, Hv.
    + now constructor.
Qed.

(** X11. On a connected handler for which caching is not on,
    [fetch_all] sends the one [SELECT] statement, commits nothing, and
    returns one instance of the model per row of the answer, in the order
    of the rows, whose [values] are the row; [fetch] returns the instance
    of the first row.  The rows are supposed to have one column per
    field, of the field's type, the mapping to have distinct keys and
    every Field to carry the name of its key. *)
Theorem fetch_all_returns_rows
        (_fields : Dict.t Field.t) (self : Database.t)
        (conn : Connection.t) (model : Class.t)
        (values : list (string * Value)) (rows : list Row) :
  Database.connection self = Some conn ->
  next_rows conn = Ok rows ->
  Database.caching_on self model = false ->
  NoDup (Dict.keys _fields) ->
  well_named _fields ->
  Forall (fun data => well_typed _fields data
                      /\ length data = length _fields) rows ->
  let self' :=
    Database.set_connection
      self (Some (sent conn (Database.select_query model values))) in
  (exists objects,
      Database.fetch_all _fields self model values = (Ok objects, self')
      /\ map (Model.values _fields) objects = rows
      /\ Forall (fun object => Model.cls object = model) objects)
  /\ (forall row more,
         rows = row :: more ->
         exists object,
           Database.fetch _fields self model values = (Ok object, self')
           /\ Model.values _fields object = row
           /\ Model.cls object = model).
Proof.
  intros Hc Hn Hoff Hnd Hnamed Hrows self'.
  assert (Hoff' : Database.caching_on self' model = false) by exact Hoff.
  split.
  - destruct (build_objects_rows model Hnd Hnamed Hrows)
      as (objects & Hb & Hv & Hcls).
    exists objects. split; [| split; [exact Hv | exact Hcls]].
    unfold Database.fetch_all.
    rewrite (execute_connected _ _ _ _ _ Hc), Hn. cbv beta iota.
    fold self'. simpl bind. rewrite Hb. now rewrite Hoff'.
  - intros row more ->.
    inversion Hrows as [| ? ? (Htyped & Hlen) _]; subst.
    destruct (row_values model Hnd Hnamed Htyped Hlen)
      as (object & Hobj & Hcls & Hvalues).
    exists object. split; [| split; [exact Hvalues | exact Hcls]].
    unfold Database.fetch.
    rewrite (execute_connected _ _ _ _ _ Hc), Hn. cbv beta iota.
    fold self'. simpl bind. rewrite Hobj. now rewrite Hoff'.
Qed.

Lemma fetch_all_returns_rows_witness :
  exists objects,
    fst (Database.fetch_all
           User_fields
           (connected [Rows [[VInt 1; VStr "a"]; [VInt 2; VStr "b"]]])
           User [("name", VStr "a")])
    = Ok objects
    /\ map (Model.values User_fields) objects
       = [[VInt 1; VStr "a"]; [VInt 2; VStr "b"]].
Proof.
  destruct (@fetch_all_returns_rows
              User_fields
              (connected [Rows [[VInt 1; VStr "a"]; [VInt 2; VStr "b"]]])
              (new_connection [Rows [[VInt 1; VStr "a"]; [VInt 2; VStr "b"]]])
              User [("name", VStr "a")]
              [[VInt 1; VStr "a"]; [VInt 2; VStr "b"]])
    as ((objects & Hf & Hv & _) & _); try reflexivity.
  - simpl. repeat constructor; simpl; intuition discriminate.
  - intros entry Hin. simpl in Hin.
    destruct Hin as [<- | [<- | []]]; reflexivity.
  - repeat constructor.
  - exists objects. rewrite Hf. split; [reflexivity | exact Hv].
Defined.

(** X22. When the answer to the [SELECT] has no row, [fetch_all] returns
    the empty list, but [fetch] raises [TypeError] (it zips the field
    names with [None]) instead of returning [None], and so does
    [get_or_fetch] when the cache has no match.  The statement was sent
    and nothing was committed. *)
Theorem fetch_without_row
        (_fields : Dict.t Field.t) (self : Database.t)
        (conn : Connection.t) (model : Class.t)
        (values : list (string * Value)) :
  Database.connection self = Some conn ->
  next_rows conn = Ok [] ->
  let self' :=
    Database.set_connection
      self (Some (sent conn (Database.select_query model values))) in
  (exists text,
      Database.fetch _fields self model values
      = (Raise (TypeError text), self')
      /\ (Database.get self model values = None ->
          Database.get_or_fetch _fields self model values
          = (Raise (TypeError text), self')))
  /\ (Database.caching_on self model = false ->
      Database.fetch_all _fields self model values = (Ok [], self')).
Proof.
  intros Hc Hn self'. split.
  - eexists. 
    assert (Hf : Database.fetch _fields self model values
                 = (Raise Database.not_iterable, self')).
    { unfold Database.fetch.
      now rewrite (execute_connected _ _ _ _ _ Hc), Hn. }
    split; [exact Hf |].
    intros Hget. unfold Database.get_or_fetch. now rewrite Hget.
  - intros Hoff.
    assert (Hoff' : Database.caching_on self' model = false) by exact Hoff.
    unfold Database.fetch_all.
    rewrite (execute_connected _ _ _ _ _ Hc), Hn. cbv beta iota.
    fold self'. simpl bind. cbv beta iota. now rewrite Hoff'.
Qed.

Lemma fetch_without_row_witness :
  exists text,
    fst (Database.fetch User_fields (connected [Rows []]) User
                        [("id", VInt 404)])
    = Raise (TypeError text).
Proof.
  destruct (@fetch_without_row User_fields (connected [Rows []])
                               (new_connection [Rows []]) User
                               [("id", VInt 404)] eq_refl eq_refl)
    as ((text & Hf & _) & _).
  exists text. now rewrite Hf.
Defined.

(** ** database.py: the statements of save, update and delete *)

(** X20. On a connected handler [save], [update] and [delete] each send
    exactly one statement and, unless the client raises, commit once.
    The [INSERT] of [save] lists the keys of the mapping as columns and
    closes the tuple of literals that [to_sql] leaves open, the literals
    being those of [values] in the same order.  The [UPDATE] of [update]
    ends with its [SET] clauses: it has no [WHERE] part. *)
Theorem save_update_delete_statements
        (_fields : Dict.t Field.t) (self : Database.t)
        (conn : Connection.t) (object : Model.t) (limit : option Z) :
  Database.connection self = Some conn ->
  let table := str (Class.__tablename__ (Model.cls object)) in
  let after (statement : string) : result unit * Database.t :=
    match next_rows conn with
    | Ok _ =>
        (Ok tt,
         Database.set_connection
           self (Some (Connection.commit (sent conn statement))))
    | Raise e =>
        (Raise e, Database.set_connection self (Some (sent conn statement)))
    end in
  Database.save _fields self object
  = after ("INSERT INTO " ++ table ++ " ("
           ++ join ", " (Dict.keys _fields) ++ ") VALUES ("
           ++ join ", " (map Model._sql_format (Model.values _fields object))
           ++ ")")
  /\ Database.update _fields self object
     = after ("UPDATE " ++ table ++ " SET "
              ++ Model.to_sql_fields _fields object ", ")
  /\ Database.delete _fields self object limit
     = after ("DELETE FROM " ++ table ++ " WHERE ("
              ++ Model.to_sql_fields _fields object " AND " ++ ")"
              ++ match limit with
                 | Some n => " LIMIT " ++ str_of_Z n
                 | None => EmptyString
                 end).
Proof.
  intros Hc table after. subst table after.
  unfold Database.save, Database.update, Database.delete.
  rewrite !(execute_connected _ _ _ _ _ Hc), to_sql_unfold.
  destruct (next_rows conn) as [rows | e]; repeat split.
Qed.

Lemma save_update_delete_statements_witness :
  Database.save User_fields (connected []) (user 1 "a")
  = (Ok tt,
     Database.__init__
       [User]
       (Some {| Connection.executed :=
                  ["INSERT INTO User (id, name) VALUES (1, 'a')"];
                Connection.commits := 1;
                Connection.replies := [] |}))
  /\ Database.update User_fields (connected []) (user 1 "a")
     = (Ok tt,
        Database.__init__
          [User]
          (Some {| Connection.executed :=
                     ["UPDATE User SET id = 1, name = 'a'"];
                   Connection.commits := 1;
                   Connection.replies := [] |})).
Proof.
  destruct (@save_update_delete_statements
              User_fields (connected []) (new_connection []) (user 1 "a")
              None eq_refl)
    as (Hsave & Hupdate & _).
  split; [now rewrite Hsave | now rewrite Hupdate].
Defined.

(** ** model.py: the methods that go through the owning handler *)

Lemma assoc_get_set_same_N {V} (d : list (N * V)) (k : N) (v : V) :
  assoc_get N.eqb (assoc_set N.eqb d k v) k = Some v.
Proof.
  induction d as [| [k' v'] d IH]; simpl.
  - now rewrite N.eqb_refl.
  - destruct (N.eqb k' k) eqn:E; simpl; rewrite E; auto.
Qed.

Lemma assoc_get_set_other_N {V} (d : list (N * V)) (k j : N) (v : V) :
  j <> k -> assoc_get N.eqb (assoc_set N.eqb d k v) j = assoc_get N.eqb d j.
Proof.
  intros Hne. induction d as [| [k' v'] d IH]; simpl.
  - destruct (N.eqb k j) eqn:E; [| reflexivity].
    apply N.eqb_eq in E. congruence.
  - destruct (N.eqb k' k) eqn:E; simpl.
    + apply N.eqb_eq in E. subst k'.
      destruct (N.eqb k j) eqn:E'; [| reflexivity].
      apply N.eqb_eq in E'. congruence.
    + now rewrite IH.
Qed.

Lemma first_bound_set_other (_database : list (N * N)) (k h : N)
      (classes : list N) :
  ~ In k classes ->
  Bound.first_bound (assoc_set N.eqb _database k h) classes
  = Bound.first_bound _database classes.
Proof.
  induction classes as [| c rest IH]; simpl; intros Hnot; [reflexivity |].
  rewrite assoc_get_set_other_N by (intros ->; tauto).
  rewrite IH by tauto. reflexivity.
Qed.

Lemma first_bound_through (_database : list (N * N)) (k h : N)
      (before after : list N) :
  Forall (fun c => assoc_get N.eqb _database c = None) before ->
  assoc_get N.eqb _database k = Some h ->
  Bound.first_bound _database (before ++ k :: after)%list = Some h.
Proof.
  intros Hbefore Hk. induction Hbefore as [| c rest Hc _ IH]; simpl.
  - now rewrite Hk.
  - now rewrite Hc.
Qed.

(** The decorator changes the classes a class derives from for the class
    it creates only. *)
Lemma model_mro_other (rt rt' : Bound.t) (h new_id : N)
      (other cls' : Class.t) (c : N) :
  Bound.model rt h new_id other = (Ok cls', rt') ->
  c <> Class.id cls' ->
  Bound.mro rt' c = Bound.mro rt c.
Proof.
  unfold Bound.model, Database.model. intros Hm Hne.
  destruct (Class.derives_Model other) eqn:Hd.
  - injection Hm as <- <-. reflexivity.
  - destruct (Model.__init_subclass__ _ (Bound._fields rt)) as [[[] | e] f];
      [| discriminate].
    injection Hm as <- <-. simpl in *.
    destruct (N.eqb c new_id) eqn:E; [| reflexivity].
    apply N.eqb_eq in E. contradiction.
Qed.

Lemma model_database (rt rt' : Bound.t) (h new_id : N)
      (other cls' : Class.t) :
  Bound.model rt h new_id other = (Ok cls', rt') ->
  Bound._database rt'
  = assoc_set N.eqb (Bound._database rt) (Class.id cls') h.
Proof.
  unfold Bound.model. intros Hm.
  destruct (Database.model (Bound._fields rt) (Bound.handlers rt h)
                           new_id other) as [[c | e] [f d]];
    [| discriminate].
  now injection Hm as <- <-.
Qed.

(** X18. For a class with no handler assigned to [_database], neither on
    it nor on a class it derives from, every method of the model layer
    that needs the handler raises the exception of [_get_database] and
    changes nothing: [save], [delete], [update] with [save] set (after its
    assignments were made), [fetch], [fetch_all], [get] and
    [get_or_fetch].  Registering the class with [add_model], or passing it
    to the handler's constructor, does not set [_database]: only the
    [model] decorator does, for the class it returns and, through the
    attribute lookup, for every class that derives from that class and has
    no nearer handler; a class that is not the returned one and does not
    derive from it stays as it was. *)
Theorem unbound_model_raises (rt : Bound.t) (cls : Class.t) :
  Bound.class_database rt (Class.id cls) = None ->
  (forall self,
      Model.cls self = cls ->
      Bound.save rt self = (Raise Bound.not_added, rt)
      /\ (forall limit,
             Bound.delete rt self limit = (Raise Bound.not_added, rt))
      /\ (forall new_values self',
             Model.set_values (Bound._fields rt) new_values self
             = (Ok tt, self') ->
             Bound.update rt self true new_values
             = (Raise Bound.not_added, (rt, self'))))
  /\ (forall values,
         Bound.fetch rt cls values = (Raise Bound.not_added, rt)
         /\ Bound.fetch_all rt cls values = (Raise Bound.not_added, rt)
         /\ Bound.get rt cls values = Raise Bound.not_added
         /\ Bound.get_or_fetch rt cls values = (Raise Bound.not_added, rt))
  /\ (forall h,
         Bound._database
           (Bound.set_handler rt h (Database.add_model (Bound.handlers rt h)
                                                       cls))
         = Bound._database rt
         /\ Bound._get_database
              (Bound.set_handler rt h
                                 (Database.add_model (Bound.handlers rt h)
                                                     cls))
              cls
            = Raise Bound.not_added)
  /\ (forall h new_id other cls' rt',
         Bound.model rt h new_id other = (Ok cls', rt') ->
         Bound._get_database rt' cls' = Ok h
         /\ (forall sub before after,
                Bound.mro rt' (Class.id sub)
                = (before ++ Class.id cls' :: after)%list ->
                Forall (fun c => assoc_get N.eqb (Bound._database rt') c
                                 = None)
                       (Class.id sub :: before) ->
                Bound._get_database rt' sub = Ok h)
         /\ (Class.id cls <> Class.id cls' ->
             ~ In (Class.id cls') (Bound.mro rt (Class.id cls)) ->
             Bound._get_database rt' cls = Raise Bound.not_added)).
Proof.
  intros H.
  assert (Hg : Bound._get_database rt cls = Raise Bound.not_added).
  { unfold Bound._get_database. now rewrite H. }
  split; [| split; [| split]].
  - intros self <-.
    assert (Hd : Bound.database rt self = Raise Bound.not_added) by exact Hg.
    split; [| split].
    + unfold Bound.save. now rewrite Hd.
    + intros limit. unfold Bound.delete. now rewrite Hd.
    + intros new_values self' Hset. unfold Bound.update. rewrite Hset.
      destruct (set_values_Ok _ _ _ Hset) as (-> & _).
      unfold Bound.database. rewrite store_all_cls. now rewrite Hg.
  - intros values.
    unfold Bound.fetch, Bound.fetch_all, Bound.get, Bound.get_or_fetch.
    rewrite Hg. repeat split.
  - intros h. split; [reflexivity | exact Hg].
  - intros h new_id other cls' rt' Hm.
    pose proof (@model_database rt rt' h new_id other cls' Hm) as Hdb.
    assert (Hown : assoc_get N.eqb (Bound._database rt') (Class.id cls')
                   = Some h).
    { rewrite Hdb. apply assoc_get_set_same_N. }
    split; [| split].
    + unfold Bound._get_database, Bound.class_database. simpl.
      now rewrite Hown.
    + intros sub before after Hmro Hbefore.
      unfold Bound._get_database, Bound.class_database.
      rewrite Hmro.
      change (Class.id sub :: before ++ Class.id cls' :: after)%list
        with ((Class.id sub :: before) ++ Class.id cls' :: after)%list.
      now rewrite (@first_bound_through (Bound._database rt') (Class.id cls')
                                        h (Class.id sub :: before) after
                                        Hbefore Hown).
    + intros Hne Hnot.
      unfold Bound._get_database, Bound.class_database.
      rewrite (@model_mro_other rt rt' h new_id other cls' (Class.id cls)
                                Hm Hne), Hdb.
      rewrite first_bound_set_other.
      * unfold Bound.class_database in H. now rewrite H.
      * simpl. intros [Heq | Hin]; [congruence | contradiction].
Qed.

Lemma unbound_model_raises_witness :
  Bound.save (runtime (connected []) []) (user 1 "a")
  = (Raise (Exception_ "this model has not been added to any databases"),
     runtime (connected []) [])
  /\ Bound._get_database
       (snd (Bound.model (with_subclass (runtime (connected []) []) 7 1)
                         0 9 User))
       Admin
     = Ok 0%N.
Proof.
  destruct (@unbound_model_raises (runtime (connected []) []) User eq_refl)
    as (H & _).
  destruct (H (user 1 "a") eq_refl) as (Hsave & _).
  split; [exact Hsave |].
  destruct (@unbound_model_raises
              (with_subclass (runtime (connected []) []) 7 1) Admin eq_refl)
    as (_ & _ & _ & Hmodel).
  destruct (Hmodel 0%N 9%N User User
                   (snd (Bound.model
                           (with_subclass (runtime (connected []) []) 7 1)
                           0 9 User)) eq_refl) as (_ & Hsub & _).
  apply (Hsub Admin [] []); [reflexivity |].
  constructor; [reflexivity | constructor].
Defined.

Lemma update_connected (_fields : Dict.t Field.t) (self : Database.t)
      (conn : Connection.t) (object : Model.t) (rows : list Row) :
  Database.connection self = Some conn ->
  next_rows conn = Ok rows ->
  Database.update _fields self object
  = (Ok tt,
     Database.set_connection
       self
       (Some (Connection.commit
                (sent conn
                   ("UPDATE " ++ str (Class.__tablename__ (Model.cls object))
                    ++ " SET " ++ Model.to_sql_fields _fields object ", "))))).
Proof.
  intros Hc Hn. unfold Database.update.
  now rewrite (execute_connected _ _ _ _ _ Hc), Hn.
Qed.

(** X19. [Model.update] assigns before it looks for the handler.  When
    an assignment is refused it raises that exception, with [save] set or
    not, and no handler is touched, although the instance keeps the
    assignments made before the refusal.  With [save] off it only
    assigns.  With [save] on, for a class bound to a connected handler
    whose client does not fail, it sends one [UPDATE] built from the
    instance as assigned, commits, and changes that handler only. *)
Theorem update_assigns_then_sends
        (rt : Bound.t) (self : Model.t) (save : bool)
        (new_values : list (string * Value)) :
  (forall e self',
      Model.set_values (Bound._fields rt) new_values self = (Raise e, self')
      -> Bound.update rt self save new_values = (Raise e, (rt, self')))
  /\ (forall self',
         Model.set_values (Bound._fields rt) new_values self = (Ok tt, self')
         -> (save = false ->
             Bound.update rt self save new_values = (Ok tt, (rt, self')))
            /\ (forall h conn rows,
                   save = true ->
                   Bound._get_database rt (Model.cls self) = Ok h ->
                   Database.connection (Bound.handlers rt h) = Some conn ->
                   next_rows conn = Ok rows ->
                   Bound.update rt self save new_values
                   = (Ok tt,
                      (Bound.set_handler
                         rt h
                         (Database.set_connection
                            (Bound.handlers rt h)
                            (Some (Connection.commit
                                     (sent conn
                                        ("UPDATE "
                                         ++ str (Class.__tablename__
                                                   (Model.cls self))
                                         ++ " SET "
                                         ++ Model.to_sql_fields
                                              (Bound._fields rt) self'
                                              ", "))))),
                       self')))).
Proof.
  split.
  - intros e self' Hset. unfold Bound.update. now rewrite Hset.
  - intros self' Hset. split.
    + intros ->. unfold Bound.update. now rewrite Hset.
    + intros h conn rows -> Hh Hc Hn. unfold Bound.update. rewrite Hset.
      destruct (set_values_Ok _ _ _ Hset) as (Hs & _).
      assert (Hcls : Model.cls self' = Model.cls self)
        by (rewrite Hs; apply store_all_cls).
      unfold Bound.database. rewrite Hcls, Hh.
      unfold Bound.on_handler.
      rewrite (@update_connected (Bound._fields rt) (Bound.handlers rt h)
                                 conn self' rows Hc Hn).
      now rewrite Hcls.
Qed.

Lemma update_assigns_then_sends_witness :
  Bound.update (runtime (connected []) [(1%N, 0%N)]) (user 1 "a") true
               [("name", VInt 7)]
  = (Raise (BadValue "name" "str"),
     (runtime (connected []) [(1%N, 0%N)], user 1 "a"))
  /\ fst (Bound.update (runtime (connected []) [(1%N, 0%N)]) (user 1 "a")
                       true [("name", VStr "b")])
     = Ok tt.
Proof.
  destruct (@update_assigns_then_sends
              (runtime (connected []) [(1%N, 0%N)]) (user 1 "a") true
              [("name", VInt 7)]) as (Hraise & _).
  destruct (@update_assigns_then_sends
              (runtime (connected []) [(1%N, 0%N)]) (user 1 "a") true
              [("name", VStr "b")]) as (_ & Hok).
  split.
  - apply Hraise. reflexivity.
  - destruct (Hok (user 1 "b") eq_refl) as (_ & Hsend).
    rewrite (Hsend 0%N (new_connection []) [] eq_refl eq_refl eq_refl
                   eq_refl).
    reflexivity.
Defined.

(** ** database.py: what a session keeps *)

Lemma keeps_refl (a : Database.t) : keeps a a.
Proof. repeat split; auto. Qed.

Lemma keeps_trans (a b c : Database.t) : keeps a b -> keeps b c -> keeps a c.
Proof.
  intros (Hm & Hc & Hn) (Hm' & Hc' & Hn').
  repeat split; [congruence | congruence | auto].
Qed.

Lemma execute_keeps (self : Database.t) (query : string)
      (commit fetch fetch_one : bool) :
  keeps self (snd (Database.execute self query commit fetch fetch_one)).
Proof.
  unfold Database.execute.
  destruct (Database.connection self) as [conn |] eqn:Hc;
    [| apply keeps_refl].
  destruct (Connection.execute conn query) as [[cursor | e] conn'];
    [destruct (fetch || fetch_one) |];
    repeat split; simpl; congruence.
Qed.

Lemma create_tables_from_keeps (_fields : Dict.t Field.t)
      (models : list Class.t) (self : Database.t) :
  keeps self (snd (Database.create_tables_from _fields models self)).
Proof.
  revert self. induction models as [| model rest IH]; intros self.
  - apply keeps_refl.
  - rewrite create_tables_from_cons.
    pose proof (execute_keeps self (create_statement _fields model)
                              true false false) as He.
    destruct (Database.execute self (create_statement _fields model)
                               true false false) as [[f | e] self'];
      simpl in He; [| exact He].
    exact (keeps_trans He (IH self')).
Qed.

Lemma add_to_cache_keeps (_fields : Dict.t Field.t) (self : Database.t)
      (model : Class.t) (objects : list Model.t) :
  keeps self (snd (Database.add_to_cache _fields self model objects)).
Proof.
  unfold Database.add_to_cache.
  destruct (assoc_get Class.eqb (Database.cache self) model);
    [| apply keeps_refl].
  destruct (Database.limit (Database.cache_config self));
    [| apply keeps_refl].
  destruct (_ >? 0)%Z; cbv beta zeta iota; [| apply keeps_refl].
  repeat split; auto.
Qed.

Lemma fetch_all_keeps (_fields : Dict.t Field.t) (self : Database.t)
      (model : Class.t) (values : list (string * Value)) :
  keeps self (snd (Database.fetch_all _fields self model values)).
Proof.
  unfold Database.fetch_all.
  pose proof (execute_keeps self (Database.select_query model values)
                            false true false) as He.
  destruct (Database.execute self (Database.select_query model values)
                             false true false) as [[f | e] self'];
    simpl in He; [| exact He].
  destruct (bind _ _) as [objects | e]; [| exact He].
  destruct (Database.caching_on self' model); [| exact He].
  pose proof (add_to_cache_keeps _fields self' model objects) as Ha.
  destruct (Database.add_to_cache _fields self' model objects)
    as [[u | e] self'']; exact (keeps_trans He Ha).
Qed.

Lemma fetch_keeps (_fields : Dict.t Field.t) (self : Database.t)
      (model : Class.t) (values : list (string * Value)) :
  keeps self (snd (Database.fetch _fields self model values)).
Proof.
  unfold Database.fetch.
  pose proof (execute_keeps self (Database.select_query model values)
                            false false true) as He.
  destruct (Database.execute self (Database.select_query model values)
                             false false true) as [[f | e] self'];
    simpl in He; [| exact He].
  destruct (bind _ _) as [object | e]; [| exact He].
  destruct (Database.caching_on self' model); [| exact He].
  pose proof (add_to_cache_keeps _fields self' model [object]) as Ha.
  destruct (Database.add_to_cache _fields self' model [object])
    as [[u | e] self'']; exact (keeps_trans He Ha).
Qed.

Section SessionKeeps.
Variable aiosqlite_connect : string -> result Connection.t.

Lemma step_models (w : World) (c : Call) :
  exists more,
    Database.models (db (step aiosqlite_connect w c))
    = (Database.models (db w) ++ more)%list.
Proof.
  assert (Hk : forall d, keeps (db w) d ->
                         exists more,
                           Database.models d
                           = (Database.models (db w) ++ more)%list).
  { intros d (Hm & _). exists []. now rewrite app_nil_r. }
  destruct c; simpl; try (apply Hk; apply keeps_refl).
  - apply Hk. apply add_to_cache_keeps.
  - now exists [model].
  - unfold Database.model.
    destruct (Class.derives_Model cls); simpl; [now exists [cls] |].
    destruct (Model.__init_subclass__ _ _) as [[u | e] f']; simpl.
    + eexists [_]. reflexivity.
    + exists []. now rewrite app_nil_r.
  - unfold Database.connect.
    destruct (aiosqlite_connect url) as [conn | e]; simpl;
      [| exists []; now rewrite app_nil_r].
    destruct create_tables; simpl; [| exists []; now rewrite app_nil_r].
    unfold Database.create_tables.
    pose proof (create_tables_from_keeps
                  (Model_fields w)
                  (Database.models
                     (Database.set_connection (db w) (Some conn)))
                  (Database.set_connection (db w) (Some conn)))
      as (Hm & _).
    exists []. rewrite app_nil_r.
    destruct (Database.create_tables_from _ _ _) as [[u | e] s];
      exact Hm.
  - apply Hk. apply create_tables_from_keeps.
  - apply Hk. apply execute_keeps.
  - apply Hk. unfold Database.save. rewrite unit_of_snd.
    apply execute_keeps.
  - apply Hk. unfold Database.delete. rewrite unit_of_snd.
    apply execute_keeps.
  - apply Hk. unfold Database.update. rewrite unit_of_snd.
    apply execute_keeps.
  - apply Hk. apply fetch_all_keeps.
  - apply Hk. apply fetch_keeps.
  - apply Hk. unfold Database.get_or_fetch.
    destruct (Database.get (db w) model values);
      [apply keeps_refl | apply fetch_keeps].
Qed.

Lemma step_unconnected (w : World) (c : Call) :
  is_connect c = false ->
  Database.connection (db w) = None ->
  Database.connection (db (step aiosqlite_connect w c)) = None.
Proof.
  intros Hc Hn.
  assert (Hk : forall d, keeps (db w) d -> Database.connection d = None).
  { intros d (_ & _ & H). now apply H. }
  destruct c; simpl; try discriminate; try exact Hn;
    try (apply Hk; apply keeps_refl).
  - apply Hk. apply add_to_cache_keeps.
  - unfold Database.model.
    destruct (Class.derives_Model cls); simpl; [exact Hn |].
    destruct (Model.__init_subclass__ _ _) as [[u | e] f']; exact Hn.
  - apply Hk. apply create_tables_from_keeps.
  - apply Hk. apply execute_keeps.
  - apply Hk. unfold Database.save. rewrite unit_of_snd.
    apply execute_keeps.
  - apply Hk. unfold Database.delete. rewrite unit_of_snd.
    apply execute_keeps.
  - apply Hk. unfold Database.update. rewrite unit_of_snd.
    apply execute_keeps.
  - apply Hk. apply fetch_all_keeps.
  - apply Hk. apply fetch_keeps.
  - apply Hk. unfold Database.get_or_fetch.
    destruct (Database.get (db w) model values);
      [apply keeps_refl | apply fetch_keeps].
Qed.

(** X23. Over any sequence of calls on a handler, the list of
    registered models only grows at its end: no call removes or reorders
    a model.  And a handler without a connection stays without one for as
    long as [connect] is not called, whatever else is called. *)
Theorem session_keeps_models_and_stays_unconnected
        (w : World) (calls : list Call) :
  (exists more,
      Database.models (db (run aiosqlite_connect w calls))
      = (Database.models (db w) ++ more)%list)
  /\ (Database.connection (db w) = None ->
      forallb (fun c => negb (is_connect c)) calls = true ->
      Database.connection (db (run aiosqlite_connect w calls)) = None).
Proof.
  revert w. induction calls as [| c rest IH]; intros w.
  - split; [exists []; simpl; now rewrite app_nil_r | auto].
  - change (run aiosqlite_connect w (c :: rest))
      with (run aiosqlite_connect (step aiosqlite_connect w c) rest).
    destruct (IH (step aiosqlite_connect w c)) as ((more & Hm) & Hn).
    split.
    + destruct (step_models w c) as (more' & Hm').
      exists (more' ++ more)%list.
      rewrite Hm, Hm'. now rewrite app_assoc.
    + intros Hnone Hall. simpl in Hall. apply andb_true_iff in Hall.
      destruct Hall as (Hc & Hrest).
      apply Hn; [| exact Hrest].
      apply step_unconnected; [| exact Hnone].
      now destruct (is_connect c).
Qed.
End SessionKeeps.

Lemma session_keeps_models_and_stays_unconnected_witness :
  Database.connection
    (db (run (fun _ => Ok (new_connection []))
             {| Model_fields := User_fields;
                db := Database.__init__ [User] None |}
             [Save (user 1 "a"); Set_caching true 2;
              Fetch User [("id", VInt 1)]]))
  = None.
Proof.
  destruct (@session_keeps_models_and_stays_unconnected
              (fun _ => Ok (new_connection []))
              {| Model_fields := User_fields;
                 db := Database.__init__ [User] None |}
              [Save (user 1 "a"); Set_caching true 2;
               Fetch User [("id", VInt 1)]])
    as (_ & H).
  apply H; reflexivity.
Defined.

(** ** database.py: get_or_fetch *)

(** X4. With caching on for the model, [get_or_fetch] returns the first
    instance of the bucket that matches the filters and leaves the
    handler, its connection included, as it was: nothing is sent.  When
    caching is not on for the model, or no instance of the bucket
    matches, it does what [fetch] does. *)
Theorem get_or_fetch_uses_cache
        (_fields : Dict.t Field.t) (self : Database.t) (model : Class.t)
        (values : list (string * Value)) :
  (forall bucket before object after,
      Database.caching_on self model = true ->
      assoc_get Class.eqb (Database.cache self) model = Some bucket ->
      bucket = (before ++ object :: after)%list ->
      Database.matches object values = true ->
      Forall (fun o => Database.matches o values = false) before ->
      Database.get_or_fetch _fields self model values = (Ok object, self))
  /\ (Database.caching_on self model = false ->
      Database.get_or_fetch _fields self model values
      = Database.fetch _fields self model values)
  /\ (forall bucket,
         assoc_get Class.eqb (Database.cache self) model = Some bucket ->
         Forall (fun o => Database.matches o values = false) bucket ->
         Database.get_or_fetch _fields self model values
         = Database.fetch _fields self model values).
Proof.
  unfold Database.get_or_fetch, Database.get.
  split; [| split].
  - intros bucket before object after Hon Hb -> Hm Hbefore.
    rewrite Hon, Hb.
    assert (Hscan : Database.scan (before ++ object :: after)%list values
                    = Some object).
    { apply scan_Some. exists before, after. auto. }
    now rewrite Hscan.
  - intros Hoff. now rewrite Hoff.
  - intros bucket Hb Hnone. rewrite Hb.
    apply scan_None in Hnone. rewrite Hnone.
    now destruct (Database.caching_on self model).
Qed.

Lemma get_or_fetch_uses_cache_witness :
  Database.get_or_fetch User_fields
    (Database.set_bucket (db_with_bucket 2) User [user 1 "a"; user 2 "b"])
    User [("id", VInt 2)]
  = (Ok (user 2 "b"),
     Database.set_bucket (db_with_bucket 2) User [user 1 "a"; user 2 "b"]).
Proof.
  destruct (@get_or_fetch_uses_cache
              User_fields
              (Database.set_bucket (db_with_bucket 2) User
                                   [user 1 "a"; user 2 "b"])
              User [("id", VInt 2)]) as (H & _).
  apply (H [user 1 "a"; user 2 "b"] [user 1 "a"] (user 2 "b") []);
    try reflexivity.
  constructor; [reflexivity | constructor].
Defined.
